(** * WHO growth z-score service: the two [compute_z] endpoints

    A shallow embedding of [src/main.py] and [src/api/zscore.py] and the
    properties of the LMS lookup-and-scoring engine they implement.

    Numbers.  A Python [float] is modelled by its value: an exact rational
    or NaN.  Rounding error, overflow and the infinities of IEEE doubles are
    outside the model; everything the endpoints do with a float (the
    zero-divisor check of [/], the case analysis of [**], the comparisons,
    [round(z, 1)]) is written out on that value.

    Strings.  [str.upper] and [str.lower] are modelled on ASCII letters;
    other bytes are left alone.

    Runtime.  What the endpoints receive from outside the repository is a
    parameter: the C library's [pow], the two string-to-number parsers
    (pandas' and Python's) and the content of the CSV files. *)

From Stdlib Require Import ZArith QArith Qround Lqa String Ascii.
From stdpp Require Import base option list strings gmap fin_maps.

Local Open Scope Z_scope.
Local Open Scope string_scope.

(** ** Python values *)

Inductive pyfloat : Type :=
| Fin (q : Q)
| NaN.

(** The result of an arithmetic expression: [**] can leave the floats. *)
Inductive pynum : Type :=
| PyFloat (x : pyfloat)
| PyComplex.

Inductive exception : Type :=
| HTTPException (status_code : Z) (detail : string)
| ZeroDivisionError
| KeyError (key : string)
| IndexError
| ValueError
| TypeError.

(** A computation that returns or raises. *)
Definition exc (A : Type) : Type := exception + A.

Definition exc_ret {A} (a : A) : exc A := inr a.
Definition exc_raise {A} (e : exception) : exc A := inl e.
Definition exc_bind {A B} (f : A -> exc B) (m : exc A) : exc B :=
  match m with
  | inl e => inl e
  | inr a => f a
  end.

#[global] Instance exc_mret : MRet exc := @exc_ret.
#[global] Instance exc_mbind : MBind exc := @exc_bind.

(** ** Float arithmetic as Python performs it *)

Definition of_int (n : Z) : pyfloat := Fin (inject_Z n).

Definition Qlt_bool (x y : Q) : bool :=
  match (x ?= y)%Q with Lt => true | _ => false end.

(** [a == b], [a < b], [a <= b]: false as soon as a NaN is involved. *)
Definition float_eq (a b : pyfloat) : bool :=
  match a, b with
  | Fin x, Fin y => Qeq_bool x y
  | _, _ => false
  end.

Definition float_lt (a b : pyfloat) : bool :=
  match a, b with
  | Fin x, Fin y => Qlt_bool x y
  | _, _ => false
  end.

Definition float_le (a b : pyfloat) : bool :=
  match a, b with
  | Fin x, Fin y => Qle_bool x y
  | _, _ => false
  end.

Definition float_mul (a b : pyfloat) : pyfloat :=
  match a, b with
  | Fin x, Fin y => Fin (x * y)
  | _, _ => NaN
  end.

Definition float_sub (a b : pyfloat) : pyfloat :=
  match a, b with
  | Fin x, Fin y => Fin (x - y)
  | _, _ => NaN
  end.

(** [a / b] raises on a zero divisor, whatever the dividend. *)
Definition float_truediv (a b : pyfloat) : exc pyfloat :=
  if float_eq b (of_int 0) then exc_raise ZeroDivisionError
  else match a, b with
       | Fin x, Fin y => exc_ret (Fin (x / y))
       | _, _ => exc_ret NaN
       end.

Definition Qis_integer (y : Q) : bool := Qeq_bool (inject_Z (Qfloor y)) y.
Definition Qis_odd_integer (y : Q) : bool := Qis_integer y && Z.odd (Qfloor y).

(** ** pandas data

    A cell of a frame read by [pd.read_csv] is a number, or the text of a
    field that is not one (in a column of dtype [object]).  A frame is its
    columns, in file order, each a name and a series of cells. *)

Inductive cell : Type :=
| CNum (x : pyfloat)
| CStr (s : string).

Abbreviation Series := (list cell).
Abbreviation DataFrame := (list (string * list cell)).

(** What the endpoints take from outside the repository. *)
Class Runtime : Type := {
  (** C's [pow], called by [**] only with a positive base other than 1 and
      a non-zero exponent *)
  libm_pow : Q -> Q -> Q;
  (** how [pd.to_numeric(..., errors="coerce")] reads a string cell:
      a number, or NaN when it is not one *)
  str_to_numeric : string -> pyfloat;
  (** how [float(s)] reads a string: [None] stands for ValueError *)
  str_to_float : string -> option pyfloat;
  (** [pd.read_csv] on a file of the data directory, by file name *)
  read_csv : string -> DataFrame
}.

Section FloatPow.
Context `{Runtime}.

(** [v ** w] on floats, with the special cases in the order CPython
    sorts them out before it calls [pow]. *)
Definition float_pow (v w : pyfloat) : exc pynum :=
  if float_eq w (of_int 0) then exc_ret (PyFloat (of_int 1))
  else match v, w with
       | NaN, _ => exc_ret (PyFloat NaN)
       | Fin x, NaN =>
           exc_ret (PyFloat (if Qeq_bool x 1 then of_int 1 else NaN))
       | Fin x, Fin y =>
           if Qeq_bool x 0 then
             if Qlt_bool y 0 then exc_raise ZeroDivisionError
             else exc_ret (PyFloat (of_int 0))
           else if Qlt_bool x 0 then
             if negb (Qis_integer y) then exc_ret PyComplex
             else
               let negate_result := Qis_odd_integer y in
               let iv := (- x)%Q in
               let ix := if Qeq_bool iv 1 then 1%Q else libm_pow iv y in
               exc_ret (PyFloat (Fin (if negate_result then - ix else ix)%Q))
           else if Qeq_bool x 1 then exc_ret (PyFloat (of_int 1))
           else exc_ret (PyFloat (Fin (libm_pow x y)))
       end.
End FloatPow.

(** [z - b], [z / b] and the comparisons when [z] may be complex. *)
Definition num_sub (z : pynum) (b : pyfloat) : pynum :=
  match z with
  | PyFloat a => PyFloat (float_sub a b)
  | PyComplex => PyComplex
  end.

Definition num_truediv (z : pynum) (b : pyfloat) : exc pynum :=
  match z with
  | PyFloat a => x ← float_truediv a b; mret (PyFloat x)
  | PyComplex =>
      if float_eq b (of_int 0) then exc_raise ZeroDivisionError
      else exc_ret PyComplex
  end.

Definition num_lt (z : pynum) (b : pyfloat) : exc bool :=
  match z with
  | PyFloat a => exc_ret (float_lt a b)
  | PyComplex => exc_raise TypeError
  end.

Definition num_le (z : pynum) (b : pyfloat) : exc bool :=
  match z with
  | PyFloat a => exc_ret (float_le a b)
  | PyComplex => exc_raise TypeError
  end.

(** [if c: a else: b] where evaluating the condition [c] may raise. *)
Notation "'IF' c 'THEN' a 'ELSE' b" :=
  (exc_bind (fun t : bool => if t then a else b) c)
  (at level 10, c at level 200, a at level 200, b at level 200).

(** Nearest integer, ties to the even one. *)
Definition round_half_even (q : Q) : Z :=
  let f := Qfloor q in
  match (q - inject_Z f ?= 1 # 2)%Q with
  | Lt => f
  | Gt => f + 1
  | Eq => if Z.even f then f else f + 1
  end.

(** [round(z, 1)]: one decimal, returned in lowest terms; a complex has no
    [__round__]. *)
Definition float_round1 (x : pyfloat) : pyfloat :=
  match x with
  | Fin q => Fin (Qred (inject_Z (round_half_even (q * 10)) / 10))
  | NaN => NaN
  end.

Definition round1 (z : pynum) : exc pyfloat :=
  match z with
  | PyFloat x => exc_ret (float_round1 x)
  | PyComplex => exc_raise TypeError
  end.

(** ** Strings *)

Definition ascii_upper (c : ascii) : ascii :=
  let n := N_of_ascii c in
  if ((97 <=? n) && (n <=? 122))%N then ascii_of_N (n - 32) else c.

Definition ascii_lower (c : ascii) : ascii :=
  let n := N_of_ascii c in
  if ((65 <=? n) && (n <=? 90))%N then ascii_of_N (n + 32) else c.

Fixpoint upper (s : string) : string :=
  match s with
  | EmptyString => EmptyString
  | String c s' => String (ascii_upper c) (upper s')
  end.

Fixpoint lower (s : string) : string :=
  match s with
  | EmptyString => EmptyString
  | String c s' => String (ascii_lower c) (lower s')
  end.

(** ** pandas operations used by the endpoints *)

(** [df.columns] *)
Definition columns (df : DataFrame) : list string := map fst df.

(** [name in df.columns] *)
Definition has_column (name : string) (df : DataFrame) : bool :=
  existsb (String.eqb name) (columns df).

(** [df[name]]: KeyError when there is no such column. *)
Fixpoint getitem (df : DataFrame) (name : string) : exc Series :=
  match df with
  | [] => exc_raise (KeyError name)
  | (n, s) :: df' => if String.eqb n name then exc_ret s else getitem df' name
  end.

(** [df[name] = s]: the column is replaced where it stands, or appended. *)
Fixpoint setitem (df : DataFrame) (name : string) (s : Series) : DataFrame :=
  match df with
  | [] => [(name, s)]
  | (n, s0) :: df' =>
      if String.eqb n name then (n, s) :: df' else (n, s0) :: setitem df' name s
  end.

(** [df.columns[0]] *)
Definition columns0 (df : DataFrame) : exc string :=
  match columns df with
  | [] => exc_raise IndexError
  | c :: _ => exc_ret c
  end.

Section ToNumeric.
Context `{Runtime}.

Definition coerce_cell (c : cell) : cell :=
  match c with
  | CNum x => CNum x
  | CStr s => CNum (str_to_numeric s)
  end.

(** [pd.to_numeric(s, errors="coerce")] *)
Definition to_numeric (s : Series) : Series := map coerce_cell s.

(** [float(c)] on a cell taken out of a frame *)
Definition float_of_cell (c : cell) : exc pyfloat :=
  match c with
  | CNum x => exc_ret x
  | CStr s =>
      match str_to_float s with
      | Some x => exc_ret x
      | None => exc_raise ValueError
      end
  end.
End ToNumeric.

(** [s == k], elementwise: the boolean mask. *)
Definition series_eq (s : Series) (k : pyfloat) : list bool :=
  map (fun c => match c with CNum x => float_eq x k | CStr _ => false end) s.

Fixpoint select {A} (mask : list bool) (l : list A) : list A :=
  match mask, l with
  | b :: mask', a :: l' => if b then a :: select mask' l' else select mask' l'
  | _, _ => []
  end.

(** [df.loc[mask]]: the rows where the mask holds, all columns. *)
Definition loc (df : DataFrame) (mask : list bool) : DataFrame :=
  map (fun '(n, s) => (n, select mask s)) df.

(** [df.empty]: no column or no row. *)
Definition empty (df : DataFrame) : bool :=
  match df with
  | [] => true
  | (_, s) :: _ => match s with [] => true | _ :: _ => false end
  end.

(** [s.values[0]] *)
Definition values0 (s : Series) : exc cell :=
  match s with
  | [] => exc_raise IndexError
  | c :: _ => exc_ret c
  end.

(** ** The request and the response *)

Module ZScoreRequest.
Record t : Type := mk {
  sex : string;
  indicator : string;
  years : option Z;
  months : option Z;
  length : option pyfloat;
  weight : option pyfloat
}.
End ZScoreRequest.

(** The returned dict [{"z_score": ..., "classification": ...}]. *)
Record response : Type := {
  z_score : pyfloat;
  classification : string
}.

(** ** The module-level [tables] dict and the handler monad

    [tables] is a module global whose frames the handler updates in place:
    a handler is a function of the dict that returns it with its outcome. *)

Abbreviation tables_t := (gmap (string * string) DataFrame).

Definition py (A : Type) : Type := tables_t -> exc A * tables_t.

Definition py_ret {A} (a : A) : py A := fun st => (inr a, st).
Definition py_bind {A B} (f : A -> py B) (m : py A) : py B :=
  fun st =>
    match m st with
    | (inl e, st') => (inl e, st')
    | (inr a, st') => f a st'
    end.

#[global] Instance py_mret : MRet py := @py_ret.
#[global] Instance py_mbind : MBind py := @py_bind.

Definition raise {A} (e : exception) : py A := fun st => (inl e, st).
Definition lift {A} (m : exc A) : py A := fun st => (m, st).

(** [tables.get(k)] *)
Definition tables_get (k : string * string) : py (option DataFrame) :=
  fun st => (inr (st !! k), st).

(** [df[name] = s] where [df] is the frame that [tables] holds under [k]:
    the frame is updated in place, so the dict holds the updated frame, which
    is also what [df] denotes from then on. *)
Definition frame_setitem (k : string * string) (df : DataFrame)
    (name : string) (s : Series) : py DataFrame :=
  fun st => let df' := setitem df name s in (inr df', <[k := df']> st).

(** ** [src/main.py] *)

Module Main.
Section Endpoint.
Context `{Runtime}.

(** The dict built at import time: five frames. *)
Definition tables : tables_t :=
  list_to_map
    [ (("M", "length"), read_csv "WHO-Boys-Length-for-age-Percentiles_LMS.csv");
      (("M", "weight"), read_csv "WHO-Boys-Weight-for-age-Percentiles_LMS.csv");
      (("M", "wfl"), read_csv "WHO-Boys-Weight-for-length-Percentiles_LMS.csv");
      (("F", "weight"), read_csv "WHO-Girls-Weight-for-age-Percentiles_LMS.csv");
      (("F", "wfl"), read_csv "WHO-Girls-Weight-for-length-Percentiles_LMS.csv") ].

Definition compute_z (request : ZScoreRequest.t) : py response :=
  let sex := upper (ZScoreRequest.sex request) in
  let ind := lower (ZScoreRequest.indicator request) in
  (* 1) Pick the right table *)
  df ← tables_get (sex, ind);
  match df with
  | None => raise (HTTPException 400 "Unknown sex or indicator")
  | Some df =>
    (* 2) Match on age (months) or length (cm) *)
    '(row, meas) ←
      (if String.eqb ind "length" || String.eqb ind "weight" then
         match ZScoreRequest.years request, ZScoreRequest.months request with
         | Some years, Some months =>
             let total_months := years * 12 + months in
             if negb (has_column "Month" df) then
               raise (HTTPException 500 "Invalid table: missing Month")
             else
               month ← lift (getitem df "Month");
               df ← frame_setitem (sex, ind) df "Month" (to_numeric month);
               month ← lift (getitem df "Month");
               let row := loc df (series_eq month (of_int total_months)) in
               let meas := if String.eqb ind "length"
                           then ZScoreRequest.length request
                           else ZScoreRequest.weight request in
               match meas with
               | None =>
                   raise (HTTPException 400
                            (if String.eqb ind "length"
                             then "Provide length (cm)"
                             else "Provide weight (kg)"))
               | Some meas => mret (row, meas)
               end
         | _, _ => raise (HTTPException 400 "Provide both years and months")
         end
       else
         match ZScoreRequest.length request, ZScoreRequest.weight request with
         | Some length, Some weight =>
             let key_val := length in
             col0 ← lift (columns0 df);
             key ← lift (getitem df col0);
             df ← frame_setitem (sex, ind) df col0 (to_numeric key);
             key ← lift (getitem df col0);
             let row := loc df (series_eq key key_val) in
             mret (row, weight)
         | _, _ =>
             raise (HTTPException 400 "Provide both length (cm) and weight (kg)")
         end);
    if empty row then raise (HTTPException 400 "No data for given age or length")
    else
      (* 3) Extract L, M, S *)
      L ← lift (s ← getitem row "L"; c ← values0 s; float_of_cell c);
      M ← lift (s ← getitem row "M"; c ← values0 s; float_of_cell c);
      S ← lift (s ← getitem row "S"; c ← values0 s; float_of_cell c);
      (* 4) Compute the z-score *)
      z ← lift (x ← float_truediv meas M;
                p ← float_pow x L;
                num_truediv (num_sub p (of_int 1)) (float_mul L S));
      z_rounded ← lift (round1 z);
      (* 5) Classify *)
      cat ← lift
        (if String.eqb ind "length" then
           IF num_lt z (of_int (-3)) THEN mret "Severely stunted"
           ELSE IF num_lt z (of_int (-2)) THEN mret "Moderately stunted"
           ELSE IF num_le z (of_int 2) THEN mret "Normal"
           ELSE mret "Tall"
         else if String.eqb ind "weight" then
           IF num_lt z (of_int (-3)) THEN mret "Severe underweight"
           ELSE IF num_lt z (of_int (-2)) THEN mret "Underweight"
           ELSE IF num_le z (of_int 2) THEN mret "Normal"
           ELSE mret "Overweight"
         else
           IF num_lt z (of_int (-3)) THEN mret "Severe wasting"
           ELSE IF num_lt z (of_int (-2)) THEN mret "Wasting"
           ELSE IF num_le z (of_int 2) THEN mret "Normal"
           ELSE mret "Overweight");
      mret {| z_score := z_rounded; classification := cat |}
  end.
End Endpoint.
End Main.

(** ** [src/api/zscore.py]

    The two [logger.info] calls write to the log only and are left out.  Its
    [DATA_DIR] ("../data" from "api/") is the directory that [src/main.py]
    reads ("data"), so both dicts are built from the same files. *)

Module Api.
Section Endpoint.
Context `{Runtime}.

(** The dict built once at startup: six frames. *)
Definition tables : tables_t :=
  list_to_map
    [ (("M", "length"), read_csv "WHO-Boys-Length-for-age-Percentiles_LMS.csv");
      (("M", "weight"), read_csv "WHO-Boys-Weight-for-age-Percentiles_LMS.csv");
      (("M", "wfl"), read_csv "WHO-Boys-Weight-for-length-Percentiles_LMS.csv");
      (("F", "length"), read_csv "WHO-Girls-Length-for-age-Percentiles_LMS.csv");
      (("F", "weight"), read_csv "WHO-Girls-Weight-for-age-Percentiles_LMS.csv");
      (("F", "wfl"), read_csv "WHO-Girls-Weight-for-length-Percentiles_LMS.csv") ].

Definition compute_z (request : ZScoreRequest.t) : py response :=
  let sex := upper (ZScoreRequest.sex request) in
  let ind := lower (ZScoreRequest.indicator request) in
  (* 1) Select the correct table *)
  df ← tables_get (sex, ind);
  match df with
  | None => raise (HTTPException 400 "Unknown sex or indicator")
  | Some df =>
    (* 2) Lookup row based on indicator *)
    '(row, meas) ←
      (if String.eqb ind "length" || String.eqb ind "weight" then
         match ZScoreRequest.years request, ZScoreRequest.months request with
         | Some years, Some months =>
             let total_months := years * 12 + months in
             if negb (has_column "Month" df) then
               raise (HTTPException 500 "Invalid table: missing Month column")
             else
               month ← lift (getitem df "Month");
               df ← frame_setitem (sex, ind) df "Month" (to_numeric month);
               month ← lift (getitem df "Month");
               let row := loc df (series_eq month (of_int total_months)) in
               let meas := if String.eqb ind "length"
                           then ZScoreRequest.length request
                           else ZScoreRequest.weight request in
               match meas with
               | None =>
                   raise (HTTPException 400
                            (if String.eqb ind "length"
                             then "Provide length (cm)"
                             else "Provide weight (kg)"))
               | Some meas => mret (row, meas)
               end
         | _, _ => raise (HTTPException 400 "Provide both years and months")
         end
       else
         match ZScoreRequest.length request, ZScoreRequest.weight request with
         | Some length, Some weight =>
             let key_val := length in
             col0 ← lift (columns0 df);
             key ← lift (getitem df col0);
             df ← frame_setitem (sex, ind) df col0 (to_numeric key);
             key ← lift (getitem df col0);
             let row := loc df (series_eq key key_val) in
             mret (row, weight)
         | _, _ =>
             raise (HTTPException 400 "Provide both length (cm) and weight (kg)")
         end);
    if empty row then raise (HTTPException 400 "No data for given age or length")
    else
      (* 3) Extract L, M, S *)
      L ← lift (s ← getitem row "L"; c ← values0 s; float_of_cell c);
      M ← lift (s ← getitem row "M"; c ← values0 s; float_of_cell c);
      S ← lift (s ← getitem row "S"; c ← values0 s; float_of_cell c);
      (* 4) Compute z-score *)
      z ← lift (x ← float_truediv meas M;
                p ← float_pow x L;
                num_truediv (num_sub p (of_int 1)) (float_mul L S));
      z_rounded ← lift (round1 z);
      (* 5) Classify *)
      cat ← lift
        (if String.eqb ind "length" then
           IF num_lt z (of_int (-3)) THEN mret "Severely stunted"
           ELSE IF num_lt z (of_int (-2)) THEN mret "Moderately stunted"
           ELSE IF num_le z (of_int 2) THEN mret "Normal"
           ELSE mret "Tall"
         else if String.eqb ind "weight" then
           IF num_lt z (of_int (-3)) THEN mret "Severe underweight"
           ELSE IF num_lt z (of_int (-2)) THEN mret "Underweight"
           ELSE IF num_le z (of_int 2) THEN mret "Normal"
           ELSE mret "Overweight"
         else
           IF num_lt z (of_int (-3)) THEN mret "Severe wasting"
           ELSE IF num_lt z (of_int (-2)) THEN mret "Wasting"
           ELSE IF num_le z (of_int 2) THEN mret "Normal"
           ELSE mret "Overweight");
      mret {| z_score := z_rounded; classification := cat |}
  end.
End Endpoint.
End Api.

(** ** The engine as the specification describes it

    The Reference Table Store (the request's key, exact-match lookup) and
    the Scoring Engine (Cole's formula, rounding, the classification table),
    written from the specification to compare the two endpoints with. *)

Module Spec.
Section Engine.
Context `{Runtime}.

(** LengthForAge and WeightForAge are looked up by age in months. *)
Definition age_indexed (ind : string) : bool :=
  String.eqb ind "length" || String.eqb ind "weight".

(** The key column of the table and the key the request looks up there.
    [detail500] is the message reported for a table without a Month
    column. *)
Definition lookup_key (detail500 : string) (ind : string)
    (request : ZScoreRequest.t) (df : DataFrame) : exc (string * pyfloat) :=
  if age_indexed ind then
    match ZScoreRequest.years request, ZScoreRequest.months request with
    | Some years, Some months =>
        if has_column "Month" df
        then mret ("Month", of_int (years * 12 + months))
        else exc_raise (HTTPException 500 detail500)
    | _, _ => exc_raise (HTTPException 400 "Provide both years and months")
    end
  else
    match ZScoreRequest.length request, ZScoreRequest.weight request with
    | Some length, Some _ => col0 ← columns0 df; mret (col0, length)
    | _, _ =>
        exc_raise (HTTPException 400 "Provide both length (cm) and weight (kg)")
    end.

(** The measurement that is scored: the length for LengthForAge, the
    weight otherwise. *)
Definition measurement (ind : string) (request : ZScoreRequest.t)
  : exc pyfloat :=
  match (if String.eqb ind "length" then ZScoreRequest.length request
         else ZScoreRequest.weight request) with
  | Some meas => mret meas
  | None =>
      exc_raise (HTTPException 400
                   (if String.eqb ind "length" then "Provide length (cm)"
                    else "Provide weight (kg)"))
  end.

(** The keys of a table, read as numbers. *)
Definition keys (df : DataFrame) (keycol : string) : Series :=
  match getitem df keycol with
  | inr s => to_numeric s
  | inl _ => []
  end.

(** The table once its key column holds those numbers. *)
Definition with_numeric_keys (df : DataFrame) (keycol : string) : DataFrame :=
  setitem df keycol (keys df keycol).

(** The rows whose key equals [key] exactly. *)
Definition Lookup (df : DataFrame) (keycol : string) (key : pyfloat)
  : DataFrame :=
  loc (with_numeric_keys df keycol) (series_eq (keys df keycol) key).

(** A parameter of the first matched row. *)
Definition param (row : DataFrame) (name : string) : exc pyfloat :=
  s ← getitem row name; c ← values0 s; float_of_cell c.

(** What reaches the scoring step: the measurement and the L, M, S of the
    matched row. *)
Definition scoring_inputs (detail500 : string) (ind : string)
    (request : ZScoreRequest.t) (df : DataFrame)
  : exc (pyfloat * pyfloat * pyfloat * pyfloat) :=
  '(keycol, key) ← lookup_key detail500 ind request df;
  meas ← measurement ind request;
  let row := Lookup df keycol key in
  if empty row
  then exc_raise (HTTPException 400 "No data for given age or length")
  else
    L ← param row "L";
    M ← param row "M";
    S ← param row "S";
    mret (meas, L, M, S).

(** Cole's LMS formula, [((meas / M) ^ L - 1) / (L * S)], in Python's
    arithmetic. *)
Definition cole_lms (meas L M S : pyfloat) : exc pynum :=
  x ← float_truediv meas M;
  p ← float_pow x L;
  num_truediv (num_sub p (of_int 1)) (float_mul L S).

(** The classification table. *)
Inductive bucket : Type := Severe | Moderate | Normal | Above.

Definition bucket_of (z : pyfloat) : bucket :=
  if float_lt z (of_int (-3)) then Severe
  else if float_lt z (of_int (-2)) then Moderate
  else if float_le z (of_int 2) then Normal
  else Above.

Definition label (ind : string) (b : bucket) : string :=
  if String.eqb ind "length" then
    match b with
    | Severe => "Severely stunted"
    | Moderate => "Moderately stunted"
    | Normal => "Normal"
    | Above => "Tall"
    end
  else if String.eqb ind "weight" then
    match b with
    | Severe => "Severe underweight"
    | Moderate => "Underweight"
    | Normal => "Normal"
    | Above => "Overweight"
    end
  else
    match b with
    | Severe => "Severe wasting"
    | Moderate => "Wasting"
    | Normal => "Normal"
    | Above => "Overweight"
    end.

Definition classify (ind : string) (z : pyfloat) : string :=
  label ind (bucket_of z).

(** Score: the rounded z-score with the class of the unrounded one. *)
Definition Score (ind : string) (meas L M S : pyfloat) : exc response :=
  z ← cole_lms meas L M S;
  match z with
  | PyFloat z =>
      mret {| z_score := float_round1 z; classification := classify ind z |}
  | PyComplex => exc_raise TypeError
  end.

(** The outcome of a request on the store [st]. *)
Definition outcome (detail500 : string) (request : ZScoreRequest.t)
    (st : tables_t) : exc response :=
  let sex := upper (ZScoreRequest.sex request) in
  let ind := lower (ZScoreRequest.indicator request) in
  match st !! (sex, ind) with
  | None => exc_raise (HTTPException 400 "Unknown sex or indicator")
  | Some df =>
      '(meas, l, m, s) ← scoring_inputs detail500 ind request df;
      Score ind meas l m s
  end.

(** The store a request leaves behind. *)
Definition store_after (detail500 : string) (request : ZScoreRequest.t)
    (st : tables_t) : tables_t :=
  let sex := upper (ZScoreRequest.sex request) in
  let ind := lower (ZScoreRequest.indicator request) in
  match st !! (sex, ind) with
  | None => st
  | Some df =>
      match lookup_key detail500 ind request df with
      | inl _ => st
      | inr (keycol, _) => <[(sex, ind) := with_numeric_keys df keycol]> st
      end
  end.

(** The first row a mask selects. *)
Fixpoint first_true (mask : list bool) : option nat :=
  match mask with
  | [] => None
  | b :: mask' => if b then Some 0%nat else S <$> first_true mask'
  end.




End Engine.
End Spec.

(** The two entry points. *)
Inductive entry : Type := MainPy | ApiPy.

Definition run `{Runtime} (e : entry) : ZScoreRequest.t -> py response :=
  match e with
  | MainPy => Main.compute_z
  | ApiPy => Api.compute_z
  end.

Definition startup `{Runtime} (e : entry) : tables_t :=
  match e with
  | MainPy => Main.tables
  | ApiPy => Api.tables
  end.

(** The message each reports for a table without a Month column. *)
Definition detail500 (e : entry) : string :=
  match e with
  | MainPy => "Invalid table: missing Month"
  | ApiPy => "Invalid table: missing Month column"
  end.

(** ** A small runtime to run the endpoints on

    Sample files in the layout of the WHO ones (a key column,
    then L, M, S), a power that is exact on the integral exponents these
    files use, and parsers that read unsigned decimal integers. *)

Fixpoint digits_value (s : string) (acc : Z) : option Z :=
  match s with
  | EmptyString => Some acc
  | String c s' =>
      let n := Z.of_N (N_of_ascii c) in
      if ((48 <=? n) && (n <=? 57))%Z then digits_value s' (10 * acc + (n - 48))
      else None
  end.

Definition parse_digits (s : string) : option Z :=
  match s with
  | EmptyString => None
  | String _ _ => digits_value s 0
  end.

Definition num (q : Q) : cell := CNum (Fin q).

Definition sample_length_for_age : DataFrame :=
  [ ("Month", [num 0; num 1; num 24]);
    ("L", [num 1; num 1; num 1]);
    ("M", [num 50; num (547 # 10); num 80]);
    ("S", [num (4 # 100); num (36 # 1000); num (5 # 100)]) ].

Definition sample_weight_for_age : DataFrame :=
  [ ("Month", [num 0; num 1]);
    ("L", [num 1; num 1]);
    ("M", [num (33 # 10); num (45 # 10)]);
    ("S", [num (15 # 100); num (13 # 100)]) ].

Definition sample_weight_for_length : DataFrame :=
  [ ("Length", [num 65; num (655 # 10)]);
    ("L", [num (-1); num (-1)]);
    ("M", [num (73 # 10); num (74 # 10)]);
    ("S", [num (8 # 100); num (8 # 100)]) ].

Definition sample_read_csv (name : string) : DataFrame :=
  if String.eqb name "WHO-Boys-Length-for-age-Percentiles_LMS.csv"
     || String.eqb name "WHO-Girls-Length-for-age-Percentiles_LMS.csv"
  then sample_length_for_age
  else if String.eqb name "WHO-Boys-Weight-for-age-Percentiles_LMS.csv"
          || String.eqb name "WHO-Girls-Weight-for-age-Percentiles_LMS.csv"
  then sample_weight_for_age
  else sample_weight_for_length.

Definition sample_runtime : Runtime := {|
  libm_pow := fun x y => Qpower x (Qfloor y);
  str_to_numeric := fun s =>
    match parse_digits s with Some n => of_int n | None => NaN end;
  str_to_float := fun s => of_int <$> parse_digits s;
  read_csv := sample_read_csv
|}.

Definition sample_request (sex ind : string) (years months : option Z)
    (length weight : option Q) : ZScoreRequest.t :=
  ZScoreRequest.mk sex ind years months (Fin <$> length) (Fin <$> weight).

(** ** Notions used to state the properties *)


(** The stores of a process: the one built at startup, and the one any
    request leaves behind. *)
Inductive reachable `{Runtime} (e : entry) : tables_t -> Prop :=
| reachable_startup : reachable e (startup e)
| reachable_call (request : ZScoreRequest.t) (st : tables_t) :
    reachable e st -> reachable e (snd (run e request st)).

(** The six (sex, indicator) combinations. *)
Definition six_combinations : list (string * string) :=
  [ ("M", "length"); ("M", "weight"); ("M", "wfl");
    ("F", "length"); ("F", "weight"); ("F", "wfl") ].

(** The same letter in the other case. *)
Definition swapcase (c : ascii) : ascii :=
  let n := N_of_ascii c in
  if ((97 <=? n) && (n <=? 122))%N then ascii_of_N (n - 32)
  else if ((65 <=? n) && (n <=? 90))%N then ascii_of_N (n + 32)
  else c.

(** Two strings that differ only in the case of their letters. *)
Fixpoint case_variant (s t : string) : bool :=
  match s, t with
  | EmptyString, EmptyString => true
  | String c s', String d t' =>
      (Ascii.eqb d c || Ascii.eqb d (swapcase c)) && case_variant s' t'
  | _, _ => false
  end.

(** A length-for-age file whose Month column is read as text, because one
    of its fields is not a number. *)
Definition text_length_for_age : DataFrame :=
  [ ("Month", [CStr "0"; CStr "1"; CStr "24+"]);
    ("L", [num 1; num 1; num 1]);
    ("M", [num 50; num (547 # 10); num 80]);
    ("S", [num (4 # 100); num (36 # 1000); num (5 # 100)]) ].

Definition text_runtime : Runtime := {|
  libm_pow := fun x y => Qpower x (Qfloor y);
  str_to_numeric := fun s =>
    match parse_digits s with Some n => of_int n | None => NaN end;
  str_to_float := fun s => of_int <$> parse_digits s;
  read_csv := fun _ => text_length_for_age
|}.



(** The requests the properties are run on. *)
Definition sample_tables (e : entry) : tables_t := @startup sample_runtime e.
Definition text_tables (e : entry) : tables_t := @startup text_runtime e.

Definition boy_24m_80 : ZScoreRequest.t :=
  sample_request "M" "length" (Some 2) (Some 0) (Some 80%Q) None.
Definition boy_7m_unmeasured : ZScoreRequest.t :=
  sample_request "M" "length" (Some 0) (Some 7) None None.
Definition boy_7m_70 : ZScoreRequest.t :=
  sample_request "M" "length" (Some 0) (Some 7) (Some 70%Q) None.
Definition boy_1m_55 : ZScoreRequest.t :=
  sample_request "M" "length" (Some 0) (Some 1) (Some 55%Q) None.
Definition girl_24m_80 : ZScoreRequest.t :=
  sample_request "F" "length" (Some 2) (Some 0) (Some 80%Q) None.
Definition girl_12m_75 : ZScoreRequest.t :=
  ZScoreRequest.mk "F" "length" (Some 1) (Some 0) (Some (Fin 75)) None.
Definition wfl_65cm_mixed_case : ZScoreRequest.t :=
  sample_request "m" "WFL" None None (Some 65%Q) (Some (73 # 10)%Q).
Definition wfl_65cm : ZScoreRequest.t :=
  sample_request "M" "wfl" None None (Some 65%Q) (Some (73 # 10)%Q).


(** ** The OpenAPI schema of [src/api/zscore.py]

    A schema is a JSON value; a dict keeps its items in insertion order.
    [get_openapi] belongs to FastAPI and is a parameter, a function of the
    routes of the app that returns a fresh value each time, with no dict in
    two places. *)

#[warnings="-register-all"] Inductive json : Type :=
| JNull
| JBool (b : bool)
| JNum (q : Q)
| JStr (s : string)
| JList (l : list json)
| JDict (items : list (string * json)).

(** [if v:] *)
Definition truthy (v : json) : bool :=
  match v with
  | JNull => false
  | JBool b => b
  | JNum q => negb (Qeq_bool q 0)
  | JStr s => negb (String.eqb s "")
  | JList l => match l with [] => false | _ :: _ => true end
  | JDict d => match d with [] => false | _ :: _ => true end
  end.

Fixpoint dict_get (d : list (string * json)) (k : string) : option json :=
  match d with
  | [] => None
  | (k', v) :: d' => if String.eqb k' k then Some v else dict_get d' k
  end.

(** An existing key keeps its place, a new one goes last. *)
Fixpoint dict_set (d : list (string * json)) (k : string) (v : json)
  : list (string * json) :=
  match d with
  | [] => [(k, v)]
  | (k', v') :: d' =>
      if String.eqb k' k then (k', v) :: d' else (k', v') :: dict_set d' k v
  end.

(** [v[k]] for a string [k] *)
Definition py_getitem (v : json) (k : string) : exc json :=
  match v with
  | JDict d =>
      match dict_get d k with
      | Some x => exc_ret x
      | None => exc_raise (KeyError k)
      end
  | _ => exc_raise TypeError
  end.

(** [v[k] = x] for a string [k]: the value of [v] afterwards *)
Definition py_setitem (v : json) (k : string) (x : json) : exc json :=
  match v with
  | JDict d => exc_ret (JDict (dict_set d k x))
  | _ => exc_raise TypeError
  end.

Definition is_str (k : string) (v : json) : bool :=
  match v with
  | JStr s => String.eqb s k
  | _ => false
  end.

(** [k in v] for a string [k]: a key of a dict, an element of a list, a
    substring of a string. *)
Definition py_contains (k : string) (v : json) : exc bool :=
  match v with
  | JDict d => exc_ret (bool_decide (is_Some (dict_get d k)))
  | JList l => exc_ret (existsb (is_str k) l)
  | JStr s => exc_ret (bool_decide (is_Some (String.index 0 k s)))
  | _ => exc_raise TypeError
  end.

Class OpenAPI : Type := {
  routes_t : Type;
  (** [get_openapi(title=..., version=..., description=..., routes=...)] *)
  get_openapi : string -> string -> string -> routes_t -> json
}.

(** The two attributes of [app] that [custom_openapi] reads or writes. *)
Record FastAPI `{OpenAPI} : Type := {
  openapi_schema : json;
  routes : routes_t
}.

Definition custom_openapi `{OpenAPI} (app : FastAPI) : exc json * FastAPI :=
  if truthy (openapi_schema app) then (inr (openapi_schema app), app)
  else
    let generated :=
      get_openapi "WHO Growth API" "0.1.0"
        "Compute WHO z-scores for children (education only)." (routes app) in
    let built : exc json :=
      schema ← py_setitem generated "servers"
                 (JList [JDict [("url", JStr "https://growth-api.vercel.app")]]);
      (* 2) Tell ChatGPT this call is safe to 'always allow' *)
      paths ← py_getitem schema "paths";
      present ← py_contains "/zscore" paths;
      if present : bool then
        paths ← py_getitem schema "paths";
        item ← py_getitem paths "/zscore";
        post ← py_getitem item "post";
        post ← py_setitem post "x-openai-isConsequential" (JBool false);
        item ← py_setitem item "post" post;
        paths ← py_setitem paths "/zscore" item;
        py_setitem schema "paths" paths
      else mret schema in
    match built with
    | inl exn => (inl exn, app)
    | inr schema =>
        (inr schema, {| openapi_schema := schema; routes := routes app |})
    end.

(** The requests of a process, served in order: the answers and the store
    left behind. *)
Fixpoint serve `{Runtime} (e : entry) (requests : list ZScoreRequest.t)
    (st : tables_t) : list (exc response) * tables_t :=
  match requests with
  | [] => ([], st)
  | request :: requests' =>
      let '(answer, st') := run e request st in
      let '(answers, st'') := serve e requests' st' in
      (answer :: answers, st'')
  end.

(** Two answers that are equal, or differ only in the wording of the error
    for a table without a Month column. *)
Definition same_answer (a b : exc response) : Prop :=
  a = b
  \/ (a = inl (HTTPException 500 "Invalid table: missing Month")
      /\ b = inl (HTTPException 500 "Invalid table: missing Month column")).




(** A schema generator that lists a POST operation for each route. *)
Definition sample_openapi : OpenAPI := {|
  routes_t := list string;
  get_openapi := fun title version description routes =>
    JDict [ ("openapi", JStr "3.1.0");
            ("info", JDict [ ("title", JStr title); ("version", JStr version);
                             ("description", JStr description) ]);
            ("paths",
             JDict (map (fun p => (p, JDict [("post", JDict [("summary", JStr p)])]))
                        routes)) ]
|}.

Definition fresh_app : @FastAPI sample_openapi :=
  @Build_FastAPI sample_openapi JNull ["/zscore"].

(** [v[k1][k2]...] *)
Fixpoint py_getpath (v : json) (path : list string) : exc json :=
  match path with
  | [] => exc_ret v
  | k :: path' => x ← py_getitem v k; py_getpath x path'
  end.

(** The schema that [get_openapi] returns for the app. *)
Definition generated_schema `{OpenAPI} (app : FastAPI) : json :=
  get_openapi "WHO Growth API" "0.1.0"
    "Compute WHO z-scores for children (education only)." (routes app).

Definition boy_24m_0cm : ZScoreRequest.t :=
  sample_request "M" "length" (Some 2) (Some 0) (Some 0%Q) None.
Definition boy_0y_24m_80 : ZScoreRequest.t :=
  sample_request "M" "length" (Some 0) (Some 24) (Some 80%Q) None.
Definition wfl_65cm_with_age : ZScoreRequest.t :=
  sample_request "M" "wfl" (Some 3) (Some 1) (Some 65%Q) (Some (73 # 10)%Q).

Definition served_schema : json :=
  match fst (custom_openapi fresh_app) with
  | inr schema => schema
  | inl _ => JNull
  end.

Definition served_app : @FastAPI sample_openapi := snd (custom_openapi fresh_app).

(** A schema generator that returns a dict without "paths". *)
Definition pathless_openapi : OpenAPI := {|
  routes_t := list string;
  get_openapi := fun title version description routes =>
    JDict [ ("openapi", JStr "3.1.0") ]
|}.

Definition pathless_app : @FastAPI pathless_openapi :=
  @Build_FastAPI pathless_openapi JNull ["/zscore"].

(** * Properties *)

(** ** pandas operations *)

Lemma getitem_setitem (df : DataFrame) (name : string) (s : Series) :
  getitem (setitem df name s) name = inr s.
Proof.
  induction df as [|[n s0] df IH]; simpl.
  - by rewrite String.eqb_refl.
  - destruct (String.eqb n name) eqn:E; simpl; rewrite E; [done | exact IH].
Qed.

Lemma getitem_has_column (df : DataFrame) (name : string) :
  has_column name df = true -> exists s, getitem df name = inr s.
Proof.
  unfold has_column, columns.
  induction df as [|[n s0] df IH]; simpl; [done |].
  rewrite (String.eqb_sym name n).
  destruct (String.eqb n name); simpl; eauto.
Qed.

Lemma getitem_columns0 (df : DataFrame) (c : string) :
  columns0 df = inr c -> exists s, getitem df c = inr s.
Proof.
  unfold columns0, columns.
  destruct df as [|[n s0] df]; simpl; [done |].
  intros [= ->]. rewrite String.eqb_refl. eauto.
Qed.

Section Refinement.
Context `{Runtime}.

Lemma keys_getitem (df : DataFrame) (keycol : string) (s : Series) :
  getitem df keycol = inr s -> Spec.keys df keycol = to_numeric s.
Proof. unfold Spec.keys. by intros ->. Qed.

(** Both endpoints are the engine: same outcome, same store left behind. *)
Lemma run_engine (e : entry) (request : ZScoreRequest.t) (st : tables_t) :
  run e request st
  = (Spec.outcome (detail500 e) request st,
     Spec.store_after (detail500 e) request st).
Proof.
  destruct e; unfold run, Main.compute_z, Api.compute_z, Spec.outcome,
    Spec.store_after, Spec.scoring_inputs, Spec.lookup_key, Spec.measurement,
    Spec.age_indexed, detail500.
  all: unfold mbind, py_mbind, py_bind, tables_get, mret, py_mret, py_ret,
    raise, lift, frame_setitem, exc_mbind, exc_mret; simpl.
  all: destruct (st !! _) as [df|]; [|done].
  all: destruct (String.eqb _ "length" || String.eqb _ "weight") eqn:Eage;
    simpl.
  1,3: destruct (ZScoreRequest.years request) as [y|]; [|done];
       destruct (ZScoreRequest.months request) as [m|]; [|done];
       destruct (has_column "Month" df) eqn:Hc; simpl; [|done];
       destruct (getitem_has_column _ _ Hc) as [s Hs]; rewrite Hs; simpl;
       rewrite getitem_setitem;
       unfold Spec.Lookup, Spec.with_numeric_keys;
       rewrite (keys_getitem _ _ _ Hs).
  3,4: destruct (ZScoreRequest.length request) as [len|]; [|done];
       destruct (ZScoreRequest.weight request) as [w|]; [|done];
       destruct (columns0 df) as [?|c] eqn:Hc; simpl; [done|];
       destruct (getitem_columns0 _ _ Hc) as [s Hs]; rewrite Hs; simpl;
       rewrite getitem_setitem;
       unfold Spec.Lookup, Spec.with_numeric_keys;
       rewrite (keys_getitem _ _ _ Hs);
       apply orb_false_iff in Eage as [E1 E2].
  all: unfold Spec.param, Spec.Score, Spec.cole_lms, Spec.classify,
    Spec.label, Spec.bucket_of, mbind, exc_mbind, mret, exc_mret, exc_bind,
    exc_ret, exc_raise, round1, num_lt, num_le.
  all: repeat (case_match; unfold exc_raise, exc_ret in *; simplify_eq;
               simpl; try done; try congruence).
  all: unfold exc in *; congruence.
Qed.
End Refinement.

(** ** Rational comparisons *)





(** ** The classification table *)


Section Scoring.
Context `{Runtime}.

End Scoring.

(** ** Matched rows *)



Lemma first_true_lookup (mask : list bool) (i : nat) :
  Spec.first_true mask = Some i ->
  mask !! i = Some true /\ forall j, (j < i)%nat -> mask !! j = Some false.
Proof.
  revert i. induction mask as [|b mask IH]; intros i; simpl; [done |].
  destruct b.
  - intros [= <-]. split; [done | intros j Hj; lia].
  - destruct (Spec.first_true mask) as [i'|]; simpl; [|done].
    intros [= <-]. destruct (IH i' eq_refl) as [Hi Hlt].
    split; [done |]. intros [|j] Hj; [done |]. apply Hlt. lia.
Qed.

Lemma first_true_None (mask : list bool) :
  Spec.first_true mask = None <-> Forall (fun b => b = false) mask.
Proof.
  induction mask as [|b mask IH]; simpl.
  - split; [constructor | done].
  - destruct b.
    + split; [done | by inversion 1].
    + rewrite fmap_None, IH. split; [by constructor | by inversion 1].
Qed.

Lemma series_eq_lookup (s : Series) (k : pyfloat) (i : nat) :
  series_eq s k !! i = Some true ->
  exists x, s !! i = Some (CNum x) /\ float_eq x k = true.
Proof.
  unfold series_eq. rewrite list_lookup_fmap.
  destruct (s !! i) as [[x|t]|]; simpl; [|done..].
  intros [= Hx]. eauto.
Qed.

Section MatchedRow.
Context `{Runtime}.

End MatchedRow.

(** ** Scoring *)




Section ScoringClaims.
Context `{Runtime}.




End ScoringClaims.

Section MedianAndDegenerate.
Context `{Runtime}.


Lemma float_pow_raises (x L : pyfloat) (exn : exception) :
  float_pow x L = inl exn -> exn = ZeroDivisionError.
Proof.
  unfold float_pow, exc_ret, exc_raise.
  repeat case_match; congruence.
Qed.

End MedianAndDegenerate.

(** ** Exact-match lookup *)

Lemma select_all_false {A} (mask : list bool) (l : list A) :
  Forall (fun b => b = false) mask -> select mask l = [].
Proof.
  intros Hm. revert l. induction Hm as [|b mask -> _ IH]; intros [|a l]; simpl;
    auto.
Qed.

Lemma empty_loc_all_false (df : DataFrame) (mask : list bool) :
  Forall (fun b => b = false) mask -> empty (loc df mask) = true.
Proof.
  intros Hm. destruct df as [|[n s] df]; simpl; [done |].
  by rewrite select_all_false.
Qed.

Lemma series_eq_all_false (s : Series) (key : pyfloat) :
  (forall x, CNum x ∈ s -> float_eq x key = false) ->
  Forall (fun b => b = false) (series_eq s key).
Proof.
  intros Hs. unfold series_eq. apply Forall_fmap, Forall_forall.
  intros [x|t] Hin; simpl; auto.
Qed.

Section ExactMatch.
Context `{Runtime}.

(** C4: when no key of the selected table equals the requested
    key, no response is returned; the error is the no-match error when the
    measurement to score is supplied, and the missing-measurement error
    otherwise. *)
Theorem C4_exact_match_only (e : entry) (request : ZScoreRequest.t)
    (st : tables_t) (df : DataFrame) (keycol : string) (key : pyfloat) :
  let ind := lower (ZScoreRequest.indicator request) in
  st !! (upper (ZScoreRequest.sex request), ind) = Some df ->
  Spec.lookup_key (detail500 e) ind request df = inr (keycol, key) ->
  (forall x, CNum x ∈ Spec.keys df keycol -> float_eq x key = false) ->
  (forall meas, Spec.measurement ind request = inr meas ->
     fst (run e request st)
     = inl (HTTPException 400 "No data for given age or length"))
  /\ (forall err, Spec.measurement ind request = inl err ->
        fst (run e request st) = inl err)
  /\ (forall res, fst (run e request st) <> inr res).
Proof.
  intros ind Hdf Hkey Hno.
  assert (fst (run e request st)
          = match Spec.measurement ind request with
            | inl err => inl err
            | inr _ => inl (HTTPException 400 "No data for given age or length")
            end) as Hrun.
  { rewrite run_engine. simpl. unfold Spec.outcome. fold ind.
    rewrite Hdf. unfold Spec.scoring_inputs. rewrite Hkey. simpl.
    destruct (Spec.measurement ind request); simpl; [done |].
    unfold Spec.Lookup.
    by rewrite empty_loc_all_false by by apply series_eq_all_false. }
  rewrite Hrun. split_and!.
  - by intros meas ->.
  - by intros err ->.
  - intros res. by destruct (Spec.measurement ind request).
Qed.
End ExactMatch.

(** ** The store *)

Lemma setitem_getitem_id (df : DataFrame) (name : string) (s : Series) :
  getitem df name = inr s -> setitem df name s = df.
Proof.
  induction df as [|[n s0] df IH]; simpl; [done |].
  destruct (String.eqb n name) eqn:E.
  - by intros [= ->].
  - intros Hs. by rewrite IH.
Qed.

Lemma columns_setitem (df : DataFrame) (name : string) (s s' : Series) :
  getitem df name = inr s -> columns (setitem df name s') = columns df.
Proof.
  unfold columns. induction df as [|[n s0] df IH]; simpl; [done |].
  destruct (String.eqb n name); simpl; [done |].
  intros Hs. by rewrite IH.
Qed.

Section Store.
Context `{Runtime}.


(** A lookup key is always that of a column of the table. *)
Lemma lookup_key_column (d ind : string) (request : ZScoreRequest.t)
    (df : DataFrame) (keycol : string) (key : pyfloat) :
  Spec.lookup_key d ind request df = inr (keycol, key) ->
  exists s, getitem df keycol = inr s.
Proof.
  unfold Spec.lookup_key, exc_raise, mbind, exc_mbind, exc_bind, mret,
    exc_mret, exc_ret.
  intros Hk. repeat case_match; simplify_eq.
  - by apply getitem_has_column.
  - by apply getitem_columns0.
Qed.

Lemma to_numeric_idemp (s : Series) : to_numeric (to_numeric s) = to_numeric s.
Proof.
  unfold to_numeric. rewrite <- list_fmap_compose.
  apply list_fmap_ext. by intros _ [x|t] _.
Qed.




Lemma run_dom (e : entry) (request : ZScoreRequest.t) (st : tables_t) :
  dom (snd (run e request st)) = dom st.
Proof.
  rewrite run_engine. simpl. unfold Spec.store_after.
  repeat case_match; try done.
  apply dom_insert_lookup_L. eauto.
Qed.

Lemma reachable_dom (e : entry) (st : tables_t) :
  reachable e st -> dom st = dom (startup e).
Proof. induction 1 as [|request st _ IH]; [done |]. by rewrite run_dom. Qed.
End Store.

(** ** The six tables and the two entry points *)

Section Tables.
Context `{Runtime}.

Lemma main_tables_girls_length : Main.tables !! ("F", "length") = None.
Proof. reflexivity. Qed.

Lemma api_tables_six (k : string * string) :
  k ∈ six_combinations -> is_Some (Api.tables !! k).
Proof.
  unfold six_combinations. rewrite !elem_of_cons, elem_of_nil.
  intros [->|[->|[->|[->|[->|[->|[]]]]]]]; by eexists.
Qed.

Lemma main_tables_five (k : string * string) :
  k ∈ six_combinations -> k <> ("F", "length") -> is_Some (Main.tables !! k).
Proof.
  unfold six_combinations. rewrite !elem_of_cons, elem_of_nil.
  intros [->|[->|[->|[->|[->|[->|[]]]]]]] Hne;
    first [ by destruct Hne | by eexists ].
Qed.

Lemma getitem_raises (df : DataFrame) (name : string) (exn : exception) :
  getitem df name = inl exn -> exn = KeyError name.
Proof.
  induction df as [|[n s] df IH]; simpl.
  - by intros [= <-].
  - by destruct (String.eqb n name).
Qed.

(** The exceptions of the extraction and scoring steps are Python's own,
    never an HTTPException. *)
Lemma param_raises (row : DataFrame) (name : string) (exn : exception) :
  Spec.param row name = inl exn ->
  exn = KeyError name \/ exn = IndexError \/ exn = ValueError.
Proof.
  unfold Spec.param, mbind, exc_mbind, exc_bind, values0, float_of_cell,
    exc_raise, exc_ret.
  destruct (getitem row name) as [exn'|s] eqn:Hg.
  - intros [= <-]. left. by apply getitem_raises in Hg.
  - repeat case_match; intros; simplify_eq; auto.
Qed.

Lemma Score_raises (ind : string) (meas L M S : pyfloat) (exn : exception) :
  Spec.Score ind meas L M S = inl exn ->
  exn = ZeroDivisionError \/ exn = TypeError.
Proof.
  unfold Spec.Score, Spec.cole_lms, mbind, exc_mbind, exc_bind, mret,
    exc_mret, exc_ret, exc_raise.
  destruct (float_truediv meas M) as [e1|x] eqn:H1.
  { unfold float_truediv, exc_raise, exc_ret in H1.
    repeat case_match; intros; simplify_eq; auto. }
  destruct (float_pow x L) as [e2|p] eqn:H2.
  { apply float_pow_raises in H2 as ->. intros [= <-]. auto. }
  destruct (num_truediv _ _) as [e3|z] eqn:H3.
  { unfold num_truediv, float_truediv, mbind, exc_mbind, exc_bind,
      exc_raise, exc_ret in H3.
    repeat case_match; intros; simplify_eq; auto. }
  destruct z; intros; simplify_eq; auto.
Qed.

(** The unknown-sex-or-indicator error is raised exactly when the dict has
    no entry for the normalised pair. *)
Lemma unknown_iff (e : entry) (request : ZScoreRequest.t) (st : tables_t) :
  fst (run e request st) = inl (HTTPException 400 "Unknown sex or indicator")
  <-> st !! (upper (ZScoreRequest.sex request),
             lower (ZScoreRequest.indicator request)) = None.
Proof.
  rewrite run_engine. simpl. unfold Spec.outcome.
  destruct (st !! _) as [df|]; [| done].
  split; [| done]. intros Hrun. exfalso. revert Hrun.
  unfold Spec.scoring_inputs, mbind, exc_mbind, exc_bind.
  destruct (Spec.lookup_key _ _ _ _) as [exn|[keycol key]] eqn:Hk.
  { unfold Spec.lookup_key, columns0, detail500, mbind, exc_mbind, exc_bind,
      mret, exc_mret, exc_ret, exc_raise in Hk.
    intros [= ->]. destruct e; repeat case_match; simplify_eq. }
  destruct (Spec.measurement _ _) as [exn|meas] eqn:Hm.
  { unfold Spec.measurement, mret, exc_mret, exc_ret, exc_raise in Hm.
    intros [= ->]. repeat case_match; simplify_eq. }
  destruct (empty _); [done |].
  destruct (Spec.param _ "L") as [exn|L] eqn:HL.
  { intros [= ->]. by destruct (param_raises _ _ _ HL) as [|[|]]. }
  destruct (Spec.param _ "M") as [exn|M] eqn:HM.
  { intros [= ->]. by destruct (param_raises _ _ _ HM) as [|[|]]. }
  destruct (Spec.param _ "S") as [exn|S] eqn:HS.
  { intros [= ->]. by destruct (param_raises _ _ _ HS) as [|[|]]. }
  unfold mret, exc_mret, exc_ret.
  intros Hsc. by destruct (Score_raises _ _ _ _ _ _ Hsc).
Qed.

Lemma reachable_lookup (e : entry) (st : tables_t) (k : string * string) :
  reachable e st -> is_Some (st !! k) <-> is_Some (startup e !! k).
Proof.
  intros Hr. rewrite <- !elem_of_dom. by rewrite (reachable_dom _ _ Hr).
Qed.

(** In [src/api/zscore.py] a request for one of the six combinations is
    never answered with the unknown-sex-or-indicator error. *)
Lemma api_serves_six_combinations (request : ZScoreRequest.t) (st : tables_t) :
  reachable ApiPy st ->
  (upper (ZScoreRequest.sex request), lower (ZScoreRequest.indicator request))
    ∈ six_combinations ->
  fst (run ApiPy request st)
  <> inl (HTTPException 400 "Unknown sex or indicator").
Proof.
  intros Hr Hk. rewrite unknown_iff.
  apply (api_tables_six _) in Hk.
  apply (reachable_lookup ApiPy st _ Hr) in Hk.
  intros E. rewrite E in Hk. by destruct Hk.
Qed.

(** C8 on [src/main.py]: the dict has no table for ("F", "length"), at
    startup and after any number of requests, and a request for a girl's
    length-for-age is answered with the unknown-sex-or-indicator error. *)
Theorem C8_main_rejects_girls_length (st : tables_t)
    (years months : option Z) (length weight : option pyfloat) :
  reachable MainPy st ->
  st !! ("F", "length") = None
  /\ fst (run MainPy
            (ZScoreRequest.mk "F" "length" years months length weight) st)
     = inl (HTTPException 400 "Unknown sex or indicator").
Proof.
  intros Hr.
  assert (st !! ("F", "length") = None) as Hnone.
  { apply eq_None_not_Some. rewrite (reachable_lookup MainPy st _ Hr).
    simpl. rewrite main_tables_girls_length. by intros []. }
  split; [done |]. by apply unknown_iff.
Qed.

(** On one and the same store the two entry points leave the same store
    behind and answer alike, up to the wording of the error for a table
    without a Month column. *)
Lemma entry_points_agree_on_a_store (request : ZScoreRequest.t)
    (st : tables_t) :
  snd (run MainPy request st) = snd (run ApiPy request st)
  /\ (fst (run MainPy request st) = fst (run ApiPy request st)
      \/ (fst (run MainPy request st)
          = inl (HTTPException 500 "Invalid table: missing Month")
          /\ fst (run ApiPy request st)
             = inl (HTTPException 500 "Invalid table: missing Month column"))).
Proof.
  rewrite !run_engine. simpl.
  unfold Spec.outcome, Spec.store_after, Spec.scoring_inputs, Spec.lookup_key,
    exc_raise, mbind, exc_mbind, exc_bind, mret, exc_mret, exc_ret.
  destruct (st !! _) as [df|]; [| by auto].
  repeat (case_match; simplify_eq; auto).
Qed.
End Tables.

(** C9: the two entry points do not answer every request alike: for a girl's
    length-for-age, [src/main.py] reports an unknown sex or indicator where
    [src/api/zscore.py] scores the measurement. *)
Theorem C9_entry_points_differ_on_girls_length :
  fst (@run sample_runtime MainPy girl_24m_80 (sample_tables MainPy))
  = inl (HTTPException 400 "Unknown sex or indicator")
  /\ fst (@run sample_runtime ApiPy girl_24m_80 (sample_tables ApiPy))
     = inr {| z_score := Fin 0; classification := "Normal" |}.
Proof. split; vm_compute; reflexivity. Qed.

(** ** Letter case *)

Lemma swapcase_upper_lower (c : ascii) :
  ascii_upper (swapcase c) = ascii_upper c
  /\ ascii_lower (swapcase c) = ascii_lower c.
Proof. destruct c as [[] [] [] [] [] [] [] []]; by vm_compute. Qed.

Lemma case_variant_upper_lower (s t : string) :
  case_variant s t = true -> upper s = upper t /\ lower s = lower t.
Proof.
  revert t. induction s as [|c s IH]; intros [|d t]; simpl; try done.
  rewrite andb_true_iff, orb_true_iff, !Ascii.eqb_eq.
  intros [Hd Hst]. destruct (IH _ Hst) as [-> ->].
  destruct (swapcase_upper_lower c) as [Hu Hl].
  destruct Hd as [->| ->]; by rewrite ?Hu, ?Hl.
Qed.

(** C10: the sex is upper-cased and the indicator lower-cased before the
    table is selected, so two requests that differ only in the letter case
    of these two fields get the same answer and leave the same store. *)
Theorem C10_letter_case_is_ignored `{Runtime} (e : entry)
    (r1 r2 : ZScoreRequest.t) (st : tables_t) :
  case_variant (ZScoreRequest.sex r1) (ZScoreRequest.sex r2) = true ->
  case_variant (ZScoreRequest.indicator r1) (ZScoreRequest.indicator r2) = true ->
  ZScoreRequest.years r1 = ZScoreRequest.years r2 ->
  ZScoreRequest.months r1 = ZScoreRequest.months r2 ->
  ZScoreRequest.length r1 = ZScoreRequest.length r2 ->
  ZScoreRequest.weight r1 = ZScoreRequest.weight r2 ->
  upper (ZScoreRequest.sex r1) = upper (ZScoreRequest.sex r2)
  /\ lower (ZScoreRequest.indicator r1) = lower (ZScoreRequest.indicator r2)
  /\ run e r1 st = run e r2 st.
Proof.
  intros Hs Hi Hy Hm Hl Hw.
  apply case_variant_upper_lower in Hs as [Hs _].
  apply case_variant_upper_lower in Hi as [_ Hi].
  split_and!; [done..|].
  rewrite !run_engine.
  destruct r1, r2; simpl in *; subst.
  unfold Spec.outcome, Spec.store_after, Spec.scoring_inputs, Spec.lookup_key,
    Spec.measurement; simpl.
  by rewrite Hs, Hi.
Qed.

(** ** The properties on sample data *)




(** An age that is not tabulated, in a request without its measurement: the
    error is the missing-measurement one, not the no-match one. *)
Lemma C4_counterexample :
  sample_tables ApiPy !! ("M", "length") = Some sample_length_for_age
  /\ Spec.lookup_key (detail500 ApiPy) "length" boy_7m_unmeasured
       sample_length_for_age = inr ("Month", of_int 7)
  /\ series_eq (@Spec.keys sample_runtime sample_length_for_age "Month") (of_int 7)
     = [false; false; false]
  /\ fst (@run sample_runtime ApiPy boy_7m_unmeasured (sample_tables ApiPy))
     = inl (HTTPException 400 "Provide length (cm)")
  /\ fst (@run sample_runtime ApiPy boy_7m_unmeasured (sample_tables ApiPy))
     <> inl (HTTPException 400 "No data for given age or length").
Proof.
  split_and!; try (vm_compute; reflexivity). vm_compute. discriminate.
Qed.

(** C4 on the sample data: 7 months is not tabulated. *)
Lemma C4_witness :
  sample_tables ApiPy !! ("M", "length") = Some sample_length_for_age
  /\ Spec.lookup_key (detail500 ApiPy) "length" boy_7m_70 sample_length_for_age
     = inr ("Month", of_int 7)
  /\ (forall x, CNum x ∈ @Spec.keys sample_runtime sample_length_for_age "Month" ->
        float_eq x (of_int 7) = false)
  /\ fst (@run sample_runtime ApiPy boy_7m_70 (sample_tables ApiPy))
     = inl (HTTPException 400 "No data for given age or length").
Proof.
  assert (forall x, CNum x ∈ @Spec.keys sample_runtime sample_length_for_age "Month" ->
            float_eq x (of_int 7) = false) as Hno.
  { intros x. vm_compute Spec.keys. rewrite !elem_of_cons, elem_of_nil.
    intros [[= ->]|[[= ->]|[[= ->]|[]]]]; reflexivity. }
  split_and!; [reflexivity | reflexivity | exact Hno |].
  destruct (@C4_exact_match_only sample_runtime ApiPy boy_7m_70
              (sample_tables ApiPy) sample_length_for_age "Month" (of_int 7)
              eq_refl eq_refl Hno) as (Hmeas & _ & _).
  exact (Hmeas (Fin 70) eq_refl).
Defined.





(** C8 at startup. *)
Lemma C8_witness :
  @reachable sample_runtime MainPy (sample_tables MainPy)
  /\ fst (@run sample_runtime MainPy girl_12m_75 (sample_tables MainPy))
     = inl (HTTPException 400 "Unknown sex or indicator").
Proof.
  split; [apply reachable_startup |].
  apply (@C8_main_rejects_girls_length sample_runtime). apply reachable_startup.
Defined.

(** C10 on the sample data: m/WFL and M/wfl. *)
Lemma C10_witness :
  case_variant "m" "M" = true /\ case_variant "WFL" "wfl" = true
  /\ @run sample_runtime ApiPy wfl_65cm_mixed_case (sample_tables ApiPy)
     = @run sample_runtime ApiPy wfl_65cm (sample_tables ApiPy)
  /\ fst (@run sample_runtime ApiPy wfl_65cm (sample_tables ApiPy))
     = inr {| z_score := Fin 0; classification := "Normal" |}.
Proof.
  split_and!; [reflexivity | reflexivity | | vm_compute; reflexivity].
  exact (proj2 (proj2 (@C10_letter_case_is_ignored sample_runtime ApiPy
                         wfl_65cm_mixed_case wfl_65cm (sample_tables ApiPy)
                         eq_refl eq_refl eq_refl eq_refl eq_refl eq_refl))).
Defined.

(** * Further properties of the endpoints *)

(** ** Errors *)

Lemma has_column_getitem (df : DataFrame) (name : string) (s : Series) :
  getitem df name = inr s -> has_column name df = true.
Proof.
  unfold has_column, columns.
  induction df as [|[n s0] df IH]; cbn [getitem map existsb fst]; [done |].
  rewrite (String.eqb_sym name n).
  destruct (String.eqb n name); [done |]. exact IH.
Qed.

Section Errors.
Context `{Runtime}.

Lemma lookup_key_raises (e : entry) (ind : string) (request : ZScoreRequest.t)
    (df : DataFrame) (exn : exception) :
  Spec.lookup_key (detail500 e) ind request df = inl exn ->
  exn ∈ [ HTTPException 400 "Provide both years and months";
          HTTPException 500 (detail500 e);
          HTTPException 400 "Provide both length (cm) and weight (kg)";
          IndexError ].
Proof.
  unfold Spec.lookup_key, columns0, mbind, exc_mbind, exc_bind, mret, exc_mret,
    exc_ret, exc_raise.
  intros Hk. rewrite !elem_of_cons.
  repeat case_match; simplify_eq; auto.
Qed.

(** The errors of a request whose key could be formed. *)
Lemma errors_after_lookup (d ind : string) (request : ZScoreRequest.t)
    (df : DataFrame) (keycol : string) (key : pyfloat) (exn : exception) :
  Spec.lookup_key d ind request df = inr (keycol, key) ->
  ('(meas, l, m, s) ← Spec.scoring_inputs d ind request df;
   Spec.Score ind meas l m s) = inl exn ->
  exn ∈ [ HTTPException 400 "Provide length (cm)";
          HTTPException 400 "Provide weight (kg)";
          HTTPException 400 "No data for given age or length";
          KeyError "L"; KeyError "M"; KeyError "S";
          IndexError; ValueError; ZeroDivisionError; TypeError ].
Proof.
  intros Hk. unfold Spec.scoring_inputs. rewrite Hk.
  unfold mbind, exc_mbind, exc_bind. rewrite !elem_of_cons.
  destruct (Spec.measurement _ _) as [exn'|meas] eqn:Hm.
  { unfold Spec.measurement, mret, exc_mret, exc_ret, exc_raise in Hm.
    intros [= ->]. repeat case_match; simplify_eq; auto. }
  destruct (empty _).
  { intros [= <-]. auto. }
  destruct (Spec.param _ "L") as [exn'|L] eqn:HL.
  { intros [= ->]. destruct (param_raises _ _ _ HL) as [->|[->| ->]]; auto 12. }
  destruct (Spec.param _ "M") as [exn'|M] eqn:HM.
  { intros [= ->]. destruct (param_raises _ _ _ HM) as [->|[->| ->]]; auto 12. }
  destruct (Spec.param _ "S") as [exn'|S] eqn:HS.
  { intros [= ->]. destruct (param_raises _ _ _ HS) as [->|[->| ->]]; auto 12. }
  unfold mret, exc_mret, exc_ret.
  intros Hsc. destruct (Score_raises _ _ _ _ _ _ Hsc) as [-> | ->]; auto 12.
Qed.

(** X1: the unknown-sex-or-indicator error is raised exactly when [tables]
    has no entry for the pair (sex.upper(), indicator.lower()); no later
    step raises it. *)
Theorem X1_unknown_exactly_without_table (e : entry)
    (request : ZScoreRequest.t) (st : tables_t) :
  fst (run e request st) = inl (HTTPException 400 "Unknown sex or indicator")
  <-> st !! (upper (ZScoreRequest.sex request),
             lower (ZScoreRequest.indicator request)) = None.
Proof.
  rewrite run_engine. cbn [fst]. unfold Spec.outcome.
  destruct (st !! _) as [df|]; [| done].
  split; [| done]. intros Hrun. exfalso.
  destruct (Spec.lookup_key (detail500 e)
              (lower (ZScoreRequest.indicator request)) request df)
    as [exn|[keycol key]] eqn:Hk.
  - unfold Spec.scoring_inputs in Hrun. rewrite Hk in Hrun.
    injection Hrun as ->.
    apply lookup_key_raises in Hk. revert Hk.
    rewrite !elem_of_cons, elem_of_nil.
    destruct e; cbn [detail500]; intros [?|[?|[?|[?|[]]]]]; simplify_eq.
  - apply (errors_after_lookup _ _ _ _ _ _ _ Hk) in Hrun. revert Hrun.
    rewrite !elem_of_cons, elem_of_nil.
    intros Hin.
    repeat match goal with
           | H : _ \/ _ |- _ => destruct H
           | H : False |- _ => destruct H
           end; simplify_eq.
Qed.


(** X3: a request rejected for an unknown pair, for missing years or months,
    for a table without a Month column or for a missing length or weight of
    weight-for-length leaves the store exactly as it was. *)
Theorem X3_early_rejections_keep_the_store (e : entry)
    (request : ZScoreRequest.t) (st : tables_t) (exn : exception) :
  fst (run e request st) = inl exn ->
  exn ∈ [ HTTPException 400 "Unknown sex or indicator";
          HTTPException 400 "Provide both years and months";
          HTTPException 500 (detail500 e);
          HTTPException 400 "Provide both length (cm) and weight (kg)" ] ->
  snd (run e request st) = st.
Proof.
  rewrite run_engine. simpl. unfold Spec.outcome, Spec.store_after.
  destruct (st !! _) as [df|]; [| done].
  destruct (Spec.lookup_key (detail500 e)
              (lower (ZScoreRequest.indicator request)) request df)
    as [exn'|[keycol key]] eqn:Hk; [done |].
  intros Hrun Hin. exfalso.
  apply (errors_after_lookup _ _ _ _ _ _ _ Hk) in Hrun.
  revert Hrun Hin. rewrite !elem_of_cons, !elem_of_nil.
  destruct e; simpl; intros Hrun Hin;
    repeat match goal with
           | H : _ \/ _ |- _ => destruct H
           | H : False |- _ => destruct H
           end; simplify_eq.
Qed.

(** X4: an age-indexed request with its years and months but without its
    measurement is rejected only after the Month column of its table has
    been overwritten with its reading as numbers. *)
Theorem X4_missing_measurement_after_rewrite (e : entry)
    (request : ZScoreRequest.t) (st : tables_t) (df : DataFrame)
    (years months : Z) (month : Series) :
  let sex := upper (ZScoreRequest.sex request) in
  let ind := lower (ZScoreRequest.indicator request) in
  st !! (sex, ind) = Some df ->
  Spec.age_indexed ind = true ->
  ZScoreRequest.years request = Some years ->
  ZScoreRequest.months request = Some months ->
  getitem df "Month" = inr month ->
  (if String.eqb ind "length" then ZScoreRequest.length request
   else ZScoreRequest.weight request) = None ->
  run e request st
  = (inl (HTTPException 400 (if String.eqb ind "length"
                             then "Provide length (cm)"
                             else "Provide weight (kg)")),
     <[(sex, ind) := setitem df "Month" (to_numeric month)]> st).
Proof.
  intros sex ind Hdf Hage Hy Hm Hmonth Hmeas.
  rewrite run_engine. unfold Spec.outcome, Spec.store_after.
  fold sex ind. rewrite Hdf.
  assert (Spec.lookup_key (detail500 e) ind request df
          = inr ("Month", of_int (years * 12 + months))) as Hk.
  { unfold Spec.lookup_key. rewrite Hage, Hy, Hm.
    by rewrite (has_column_getitem _ _ _ Hmonth). }
  unfold Spec.scoring_inputs. rewrite Hk. simpl.
  unfold Spec.measurement. rewrite Hmeas. simpl.
  unfold Spec.with_numeric_keys, Spec.keys. by rewrite Hmonth.
Qed.
End Errors.

(** ** Edge cases of the scoring step *)






Section Edges.
Context `{Runtime}.








End Edges.

(** ** What a request is read for *)

Section Fields.
Context `{Runtime}.

(** The engine reads the store only at the normalised pair of the
    request. *)
Lemma outcome_lookup (d : string) (request : ZScoreRequest.t)
    (st1 st2 : tables_t) :
  st1 !! (upper (ZScoreRequest.sex request),
          lower (ZScoreRequest.indicator request))
  = st2 !! (upper (ZScoreRequest.sex request),
            lower (ZScoreRequest.indicator request)) ->
  Spec.outcome d request st1 = Spec.outcome d request st2.
Proof. unfold Spec.outcome. by intros ->. Qed.

(** X10: the age enters only as years * 12 + months: two requests with the
    same total, and otherwise equal, are answered alike; neither field is
    bounded, so 0 years 12 months is 1 year 0 months. *)
Theorem X10_age_is_total_months (e : entry) (r1 r2 : ZScoreRequest.t)
    (st : tables_t) (y1 m1 y2 m2 : Z) :
  ZScoreRequest.sex r1 = ZScoreRequest.sex r2 ->
  ZScoreRequest.indicator r1 = ZScoreRequest.indicator r2 ->
  ZScoreRequest.length r1 = ZScoreRequest.length r2 ->
  ZScoreRequest.weight r1 = ZScoreRequest.weight r2 ->
  ZScoreRequest.years r1 = Some y1 -> ZScoreRequest.months r1 = Some m1 ->
  ZScoreRequest.years r2 = Some y2 -> ZScoreRequest.months r2 = Some m2 ->
  y1 * 12 + m1 = y2 * 12 + m2 ->
  run e r1 st = run e r2 st.
Proof.
  intros Hs Hi Hl Hw Hy1 Hm1 Hy2 Hm2 Htotal.
  rewrite !run_engine.
  destruct r1, r2; simpl in *; subst.
  unfold Spec.outcome, Spec.store_after, Spec.scoring_inputs, Spec.lookup_key,
    Spec.measurement; simpl.
  by rewrite Htotal.
Qed.

(** X11: a request is read only for the fields of its indicator: years and
    months are ignored for weight-for-length, the weight for length-for-age
    and the length for weight-for-age. *)
Theorem X11_other_fields_are_ignored (e : entry) (r1 r2 : ZScoreRequest.t)
    (st : tables_t) :
  let ind := lower (ZScoreRequest.indicator r1) in
  ZScoreRequest.sex r1 = ZScoreRequest.sex r2 ->
  ZScoreRequest.indicator r1 = ZScoreRequest.indicator r2 ->
  (if Spec.age_indexed ind
   then ZScoreRequest.years r1 = ZScoreRequest.years r2
        /\ ZScoreRequest.months r1 = ZScoreRequest.months r2
        /\ (if String.eqb ind "length"
            then ZScoreRequest.length r1 = ZScoreRequest.length r2
            else ZScoreRequest.weight r1 = ZScoreRequest.weight r2)
   else ZScoreRequest.length r1 = ZScoreRequest.length r2
        /\ ZScoreRequest.weight r1 = ZScoreRequest.weight r2) ->
  run e r1 st = run e r2 st.
Proof.
  intros ind Hs Hi Hfields. subst ind.
  rewrite !run_engine.
  destruct r1 as [s1 i1 y1 m1 l1 w1], r2 as [s2 i2 y2 m2 l2 w2];
    simpl in *; subst.
  unfold Spec.outcome, Spec.store_after, Spec.scoring_inputs, Spec.lookup_key,
    Spec.measurement, Spec.age_indexed in *; simpl.
  destruct (String.eqb (lower i2) "length") eqn:El; simpl in *.
  - destruct Hfields as (-> & -> & ->).
    destruct (st !! _); [| done].
    by repeat case_match.
  - destruct (String.eqb (lower i2) "weight") eqn:Ew; simpl in *.
    + destruct Hfields as (-> & -> & ->).
      destruct (st !! _); [| done].
      by repeat case_match.
    + by destruct Hfields as (-> & ->).
Qed.
End Fields.

(** ** The two processes side by side *)

Section Processes.
Context `{Runtime}.

Lemma store_after_cases (d : string) (request : ZScoreRequest.t)
    (st : tables_t) :
  let k := (upper (ZScoreRequest.sex request),
            lower (ZScoreRequest.indicator request)) in
  Spec.store_after d request st = st
  \/ exists df keycol s,
       st !! k = Some df
       /\ Spec.lookup_key d (snd k) request df = inr (keycol, s)
       /\ Spec.store_after d request st
          = <[k := Spec.with_numeric_keys df keycol]> st.
Proof.
  intros k. unfold Spec.store_after. fold k.
  destruct (st !! k) as [df|] eqn:Hdf; [| by left].
  destruct (Spec.lookup_key d _ request df) as [?|[keycol key]] eqn:Hk;
    [by left |].
  right. by exists df, keycol, key.
Qed.

Lemma lookup_key_detail (d1 d2 ind : string) (request : ZScoreRequest.t)
    (df : DataFrame) (keycol : string) (key : pyfloat) :
  Spec.lookup_key d1 ind request df = inr (keycol, key) ->
  Spec.lookup_key d2 ind request df = inr (keycol, key).
Proof.
  unfold Spec.lookup_key, exc_raise, mret, exc_mret, exc_ret.
  repeat case_match; simplify_eq; done.
Qed.

Lemma store_after_delete (d1 d2 : string) (request : ZScoreRequest.t)
    (sa : tables_t) :
  Spec.store_after d1 request (delete ("F", "length") sa)
  = delete ("F", "length") (Spec.store_after d2 request sa).
Proof.
  unfold Spec.store_after. set (k := (upper _, lower _)).
  destruct (decide (("F", "length") = k)) as [Hkf|Hkf].
  - rewrite <- Hkf. rewrite lookup_delete_eq.
    destruct (sa !! _) as [df|]; [| done].
    destruct (Spec.lookup_key d2 _ request df) as [?|[keycol key]]; [done |].
    by rewrite delete_insert_eq.
  - rewrite lookup_delete_ne by done.
    destruct (sa !! k) as [df|]; [| done].
    destruct (Spec.lookup_key d1 _ request df) as [?|[keycol key]] eqn:H1,
             (Spec.lookup_key d2 _ request df) as [?|[keycol' key']] eqn:H2.
    + done.
    + by rewrite (lookup_key_detail _ d1 _ _ _ _ _ H2) in H1.
    + by rewrite (lookup_key_detail _ d2 _ _ _ _ _ H1) in H2.
    + rewrite (lookup_key_detail _ d2 _ _ _ _ _ H1) in H2.
      injection H2 as <- <-. by rewrite delete_insert_ne.
Qed.

(** One request on a store of [src/main.py] and on a store of
    [src/api/zscore.py] that differ only by the girls' length-for-age
    table. *)
Lemma step_side_by_side (request : ZScoreRequest.t) (sm sa : tables_t) :
  sm = delete ("F", "length") sa ->
  snd (run MainPy request sm) = delete ("F", "length") (snd (run ApiPy request sa))
  /\ (if bool_decide ((upper (ZScoreRequest.sex request),
                       lower (ZScoreRequest.indicator request))
                      = ("F", "length"))
      then fst (run MainPy request sm)
           = inl (HTTPException 400 "Unknown sex or indicator")
      else same_answer (fst (run MainPy request sm)) (fst (run ApiPy request sa))).
Proof.
  intros ->. split.
  - rewrite !run_engine. apply store_after_delete.
  - case_bool_decide as Hkf.
    + apply unknown_iff. rewrite Hkf. apply lookup_delete_eq.
    + destruct (entry_points_agree_on_a_store request sa) as [_ Hagree].
      assert (fst (run MainPy request (delete ("F", "length") sa))
              = fst (run MainPy request sa)) as ->; [| exact Hagree].
      rewrite !run_engine. apply outcome_lookup.
      by rewrite lookup_delete_ne.
Qed.

Lemma main_tables_delete : Main.tables = delete ("F", "length") Api.tables.
Proof.
  unfold Main.tables, Api.tables.
  rewrite !list_to_map_cons, !list_to_map_nil.
  rewrite !delete_insert_ne by done. rewrite delete_insert_eq.
  rewrite !delete_insert_ne by done. by rewrite delete_empty.
Qed.

Lemma serve_length (e : entry) (requests : list ZScoreRequest.t) (st : tables_t) :
  length (fst (serve e requests st)) = length requests.
Proof.
  revert st. induction requests as [|r rs IH]; intros st; cbn [serve];
    [done |].
  destruct (run e r st) as [a st']. specialize (IH st').
  destruct (serve e rs st') as [os st'']. cbn [fst length] in *. by rewrite IH.
Qed.

Lemma serve_side_by_side (requests : list ZScoreRequest.t) (sm sa : tables_t) :
  sm = delete ("F", "length") sa ->
  snd (serve MainPy requests sm)
  = delete ("F", "length") (snd (serve ApiPy requests sa))
  /\ forall i request a b,
       requests !! i = Some request ->
       fst (serve MainPy requests sm) !! i = Some a ->
       fst (serve ApiPy requests sa) !! i = Some b ->
       if bool_decide ((upper (ZScoreRequest.sex request),
                        lower (ZScoreRequest.indicator request))
                       = ("F", "length"))
       then a = inl (HTTPException 400 "Unknown sex or indicator")
       else same_answer a b.
Proof.
  revert sm sa. induction requests as [|r rs IH]; intros sm sa Hrel;
    cbn [serve].
  { split; [done |]. by intros i request a b. }
  destruct (step_side_by_side r sm sa Hrel) as [Hst Hans].
  destruct (run MainPy r sm) as [am sm'], (run ApiPy r sa) as [aa sa'].
  cbn [fst snd] in Hst, Hans.
  destruct (IH sm' sa' Hst) as [Hst' Hrest].
  destruct (serve MainPy rs sm') as [oms sm''], (serve ApiPy rs sa') as [oas sa''].
  cbn [fst snd] in *. split; [exact Hst' |].
  intros [|i] request a b; cbn [lookup list_lookup].
  - by intros [= <-] [= <-] [= <-].
  - apply Hrest.
Qed.

(** X12: started side by side and sent the same requests, in any number,
    the two processes keep stores that differ only by the girls'
    length-for-age table, and answer each request alike (up to the wording
    of the error for a table without a Month column), except the requests
    for a girl's length-for-age, which [src/main.py] answers with the
    unknown-sex-or-indicator error. *)
Theorem X12_processes_side_by_side (requests : list ZScoreRequest.t) :
  snd (serve MainPy requests (startup MainPy))
  = delete ("F", "length") (snd (serve ApiPy requests (startup ApiPy)))
  /\ length (fst (serve MainPy requests (startup MainPy))) = length requests
  /\ length (fst (serve ApiPy requests (startup ApiPy))) = length requests
  /\ forall i request a b,
       requests !! i = Some request ->
       fst (serve MainPy requests (startup MainPy)) !! i = Some a ->
       fst (serve ApiPy requests (startup ApiPy)) !! i = Some b ->
       if bool_decide ((upper (ZScoreRequest.sex request),
                        lower (ZScoreRequest.indicator request))
                       = ("F", "length"))
       then a = inl (HTTPException 400 "Unknown sex or indicator")
       else same_answer a b.
Proof.
  destruct (serve_side_by_side requests (startup MainPy) (startup ApiPy)
              main_tables_delete) as [Hst Hans].
  split_and!; [exact Hst | apply serve_length | apply serve_length | exact Hans].
Qed.
End Processes.

(** ** The tables over the life of a process *)

Section Lifetime.
Context `{Runtime}.

Lemma lookup_key_keycol (d ind : string) (request : ZScoreRequest.t)
    (df : DataFrame) (keycol : string) (key : pyfloat) :
  Spec.lookup_key d ind request df = inr (keycol, key) ->
  if Spec.age_indexed ind then keycol = "Month" else columns0 df = inr keycol.
Proof.
  unfold Spec.lookup_key, exc_raise, mbind, exc_mbind, exc_bind, mret,
    exc_mret, exc_ret.
  intros Hk. repeat case_match; by simplify_eq.
Qed.

Lemma columns0_setitem (df : DataFrame) (name : string) (s s' : Series) :
  getitem df name = inr s -> columns0 (setitem df name s') = columns0 df.
Proof. intros Hs. unfold columns0. by rewrite (columns_setitem _ _ _ s' Hs). Qed.

(** X13: at any time in the life of a process each table of the store is
    the table read at startup, or that table with its key column (Month for
    the age-indexed ones, the first column for the others) read as numbers:
    no request adds or removes a row or a column or touches another
    column. *)
Theorem X13_tables_over_a_lifetime (e : entry) (st : tables_t)
    (sex ind : string) (df : DataFrame) :
  reachable e st ->
  st !! (sex, ind) = Some df ->
  exists df0,
    startup e !! (sex, ind) = Some df0
    /\ (df = df0
        \/ exists keycol s,
             (if Spec.age_indexed ind then keycol = "Month"
              else columns0 df0 = inr keycol)
             /\ getitem df0 keycol = inr s
             /\ df = setitem df0 keycol (to_numeric s)).
Proof.
  intros Hr. revert df. induction Hr as [|request st Hr IH]; intros df Hdf.
  { exists df. by split; [| left]. }
  rewrite run_engine in Hdf. cbn [snd] in Hdf.
  destruct (store_after_cases (detail500 e) request st)
    as [Hsame|(dfk & keycol & key & Hdfk & Hk & Hafter)].
  { rewrite Hsame in Hdf. by apply IH. }
  rewrite Hafter in Hdf. clear Hafter. cbn [snd] in Hk.
  set (k := (upper _, lower _)) in *.
  destruct (decide (k = (sex, ind))) as [Hkeq|Hkne].
  2: { rewrite lookup_insert_ne in Hdf by done. by apply IH. }
  rewrite Hkeq in Hdf, Hdfk. rewrite lookup_insert_eq in Hdf.
  injection Hdf as <-.
  assert (lower (ZScoreRequest.indicator request) = ind) as Hind
    by (by injection Hkeq).
  rewrite Hind in Hk.
  destruct (IH _ Hdfk) as (df0 & Hdf0 & Hcase).
  exists df0. split; [done |]. right.
  pose proof (lookup_key_keycol _ _ _ _ _ _ Hk) as Hcol.
  destruct (lookup_key_column _ _ _ _ _ _ Hk) as [s Hs].
  unfold Spec.with_numeric_keys, Spec.keys. rewrite Hs.
  destruct Hcase as [->|(keycol0 & s0 & Hcol0 & Hs0 & ->)].
  - by exists keycol, s.
  - assert (keycol = keycol0) as ->.
    { destruct (Spec.age_indexed ind); [congruence |].
      rewrite (columns0_setitem _ _ _ _ Hs0) in Hcol. congruence. }
    rewrite getitem_setitem in Hs. injection Hs as <-.
    exists keycol0, s0. split_and!; [done.. |].
    rewrite to_numeric_idemp.
    apply setitem_getitem_id, getitem_setitem.
Qed.
End Lifetime.

(** * Properties of [custom_openapi] *)

Lemma dict_get_set_eq (d : list (string * json)) (k : string) (v : json) :
  dict_get (dict_set d k v) k = Some v.
Proof.
  induction d as [|[k' v'] d IH]; cbn [dict_set dict_get].
  - by rewrite String.eqb_refl.
  - destruct (String.eqb k' k) eqn:E; cbn [dict_get]; by rewrite E.
Qed.

Lemma dict_get_set_ne (d : list (string * json)) (k k' : string) (v : json) :
  k <> k' -> dict_get (dict_set d k v) k' = dict_get d k'.
Proof.
  intros Hne. induction d as [|[k0 v0] d IH]; cbn [dict_set dict_get].
  - apply String.eqb_neq in Hne. by rewrite Hne.
  - destruct (String.eqb k0 k) eqn:E; cbn [dict_get]; [| by rewrite IH].
    apply String.eqb_eq in E as ->.
    apply String.eqb_neq in Hne. by rewrite Hne.
Qed.

Lemma dict_set_truthy (d : list (string * json)) (k : string) (v : json) :
  truthy (JDict (dict_set d k v)) = true.
Proof.
  destruct d as [|[k' v'] d]; cbn [dict_set]; [done |].
  by destruct (String.eqb k' k).
Qed.

Section Schema.
Context `{OpenAPI}.

(** What a first, successful call has built: the generated dict with its
    servers replaced, and with the flag on the POST operation of /zscore
    when the paths hold one. *)
Lemma custom_openapi_built (app : FastAPI) (schema : json) (app' : FastAPI) :
  truthy (openapi_schema app) = false ->
  custom_openapi app = (inr schema, app') ->
  app' = {| openapi_schema := schema; routes := routes app |}
  /\ exists d paths served,
       generated_schema app = JDict d
       /\ dict_get d "paths" = Some paths
       /\ served
          = dict_set d "servers"
              (JList [JDict [("url", JStr "https://growth-api.vercel.app")]])
       /\ ((py_contains "/zscore" paths = inr false /\ schema = JDict served)
           \/ (exists pd item post,
                 paths = JDict pd
                 /\ dict_get pd "/zscore" = Some (JDict item)
                 /\ dict_get item "post" = Some (JDict post)
                 /\ schema
                    = JDict
                        (dict_set served "paths"
                           (JDict
                              (dict_set pd "/zscore"
                                 (JDict
                                    (dict_set item "post"
                                       (JDict
                                          (dict_set post
                                             "x-openai-isConsequential"
                                             (JBool false)))))))))).
Proof.
  intros Hcache. unfold custom_openapi. rewrite Hcache.
  fold (generated_schema app).
  destruct (generated_schema app) as [| | | | |d]; try done.
  unfold py_setitem, py_getitem, mbind, exc_mbind, exc_bind, mret, exc_mret,
    exc_ret, exc_raise.
  cbv beta iota. rewrite dict_get_set_ne by done.
  destruct (dict_get d "paths") as [paths|] eqn:Hpaths; [| done].
  destruct (py_contains "/zscore" paths) as [?|[|]] eqn:Hin; [done | |].
  2: { intros [= <- <-]. split; [done |]. eexists d, paths, _.
       split_and!; [done.. |]. by left. }
  destruct paths as [| | | | |pd]; try done.
  destruct (dict_get pd "/zscore") as [item|] eqn:Hitem; [| done].
  destruct item as [| | | | |item]; try done.
  destruct (dict_get item "post") as [post|] eqn:Hpost; [| done].
  destruct post as [| | | | |post]; try done.
  intros [= <- <-]. split; [done |]. eexists d, (JDict pd), _.
  split_and!; [done.. |]. right. by exists pd, item, post.
Qed.

(** X14: once a call has succeeded the schema is cached: the app holds the
    returned schema, which is a non-empty dict, and every later call returns
    it as it is, also when the routes of the app have changed since. *)
Theorem X14_schema_is_cached (app : FastAPI) (schema : json) (app' : FastAPI) :
  custom_openapi app = (inr schema, app') ->
  openapi_schema app' = schema
  /\ routes app' = routes app
  /\ truthy schema = true
  /\ forall routes',
       custom_openapi {| openapi_schema := schema; routes := routes' |}
       = (inr schema, {| openapi_schema := schema; routes := routes' |}).
Proof.
  intros Hcall.
  assert (openapi_schema app' = schema /\ routes app' = routes app
          /\ truthy schema = true) as (H1 & H2 & H3).
  { destruct (truthy (openapi_schema app)) eqn:Hcache.
    - unfold custom_openapi in Hcall. rewrite Hcache in Hcall.
      by injection Hcall as <- <-.
    - destruct (custom_openapi_built _ _ _ Hcache Hcall)
        as (-> & d & paths & served & _ & _ & ->
            & [[_ ->]|(pd & item & post & _ & _ & _ & ->)]);
        split_and!; try done; apply dict_set_truthy. }
  split_and!; try done.
  intros routes'. unfold custom_openapi. cbn [openapi_schema]. by rewrite H3.
Qed.

(** X15: a first, successful call returns the generated schema with its
    "servers" replaced by the one permanent URL; every other top-level
    entry but "paths" is as generated. *)
Theorem X15_servers_are_replaced (app : FastAPI) (schema : json)
    (app' : FastAPI) :
  truthy (openapi_schema app) = false ->
  custom_openapi app = (inr schema, app') ->
  py_getitem schema "servers"
  = inr (JList [JDict [("url", JStr "https://growth-api.vercel.app")]])
  /\ forall k, k <> "servers" -> k <> "paths" ->
       py_getitem schema k = py_getitem (generated_schema app) k.
Proof.
  intros Hcache Hcall.
  destruct (custom_openapi_built _ _ _ Hcache Hcall)
    as (_ & d & paths & served & -> & _ & ->
        & [[_ ->]|(pd & item & post & _ & _ & _ & ->)]).
  - split.
    + unfold py_getitem. by rewrite dict_get_set_eq.
    + intros k Hs Hp. unfold py_getitem. by rewrite dict_get_set_ne.
  - split.
    + unfold py_getitem. rewrite dict_get_set_ne by done.
      by rewrite dict_get_set_eq.
    + intros k Hs Hp. unfold py_getitem. by rewrite !dict_get_set_ne.
Qed.

(** X16: a first, successful call on a schema whose paths hold "/zscore"
    marks its POST operation "x-openai-isConsequential": false; every other
    path, every other method of /zscore and every other entry of that
    operation is as generated. *)
Theorem X16_zscore_post_is_flagged (app : FastAPI) (schema : json)
    (app' : FastAPI) :
  truthy (openapi_schema app) = false ->
  custom_openapi app = (inr schema, app') ->
  ((paths ← py_getitem (generated_schema app) "paths";
    py_contains "/zscore" paths) = inr true ->
   py_getpath schema ["paths"; "/zscore"; "post"; "x-openai-isConsequential"]
   = inr (JBool false))
  /\ (forall p, p <> "/zscore" ->
        py_getpath schema ["paths"; p]
        = py_getpath (generated_schema app) ["paths"; p])
  /\ (forall m, m <> "post" ->
        py_getpath schema ["paths"; "/zscore"; m]
        = py_getpath (generated_schema app) ["paths"; "/zscore"; m])
  /\ (forall k, k <> "x-openai-isConsequential" ->
        py_getpath schema ["paths"; "/zscore"; "post"; k]
        = py_getpath (generated_schema app) ["paths"; "/zscore"; "post"; k]).
Proof.
  intros Hcache Hcall.
  destruct (custom_openapi_built _ _ _ Hcache Hcall)
    as (_ & d & paths & served & -> & Hpaths & ->
        & [[Hin ->]|(pd & item & post & -> & Hitem & Hpost & ->)]).
  - assert (forall path,
              py_getpath (JDict (dict_set d "servers"
                (JList [JDict [("url", JStr "https://growth-api.vercel.app")]])))
                ("paths" :: path)
              = py_getpath (JDict d) ("paths" :: path)) as Hsame.
    { intros path. cbn [py_getpath].
      assert (py_getitem (JDict (dict_set d "servers"
                (JList [JDict [("url", JStr "https://growth-api.vercel.app")]])))
                "paths" = py_getitem (JDict d) "paths") as ->; [| done].
      unfold py_getitem. by rewrite dict_get_set_ne. }
    split_and!; try (intros; apply Hsame).
    unfold py_getitem, mbind, exc_mbind, exc_bind, exc_ret.
    rewrite Hpaths, Hin. done.
  - cbn [py_getpath].
    unfold py_getitem, mbind, exc_mbind, exc_bind, exc_ret, exc_raise.
    split_and!; intros;
      repeat (cbv beta iota;
              progress rewrite ?dict_get_set_eq, ?Hpaths, ?Hitem, ?Hpost);
      try (rewrite dict_get_set_ne by done);
      repeat (cbv beta iota;
              progress rewrite ?dict_get_set_eq, ?Hpaths, ?Hitem, ?Hpost);
      done.
Qed.

(** X17: a call that fails raises a TypeError or a KeyError on "paths" or
    on "post", found no usable cache, and leaves the app as it was: nothing
    is cached, so the next call generates the schema again. *)
Theorem X17_failed_call_caches_nothing (app : FastAPI) (exn : exception)
    (app' : FastAPI) :
  custom_openapi app = (inl exn, app') ->
  app' = app
  /\ truthy (openapi_schema app) = false
  /\ exn ∈ [TypeError; KeyError "paths"; KeyError "post"].
Proof.
  unfold custom_openapi.
  destruct (truthy (openapi_schema app)); [done |].
  fold (generated_schema app). rewrite !elem_of_cons.
  unfold py_setitem, py_getitem, py_contains, mbind, exc_mbind, exc_bind, mret,
    exc_mret, exc_ret, exc_raise.
  intros Hcall.
  repeat (case_match; simplify_eq; auto 6).
Qed.
End Schema.

(** ** Tabulated keys are found *)




Section Found.
Context `{Runtime}.



End Found.

(** ** The further properties on sample data *)

(** X1 on the sample data: no girls' length-for-age table in
    [src/main.py]. *)
Lemma X1_witness :
  sample_tables MainPy !! ("F", "length") = None
  /\ fst (@run sample_runtime MainPy girl_24m_80 (sample_tables MainPy))
     = inl (HTTPException 400 "Unknown sex or indicator").
Proof.
  split; [reflexivity |].
  apply (proj2 (@X1_unknown_exactly_without_table sample_runtime MainPy
                  girl_24m_80 (sample_tables MainPy))).
  reflexivity.
Defined.


(** X3 on the sample data: a girl's length-for-age in [src/main.py]. *)
Lemma X3_witness :
  fst (@run sample_runtime MainPy girl_24m_80 (sample_tables MainPy))
  = inl (HTTPException 400 "Unknown sex or indicator")
  /\ HTTPException 400 "Unknown sex or indicator"
     ∈ [ HTTPException 400 "Unknown sex or indicator";
         HTTPException 400 "Provide both years and months";
         HTTPException 500 (detail500 MainPy);
         HTTPException 400 "Provide both length (cm) and weight (kg)" ]
  /\ snd (@run sample_runtime MainPy girl_24m_80 (sample_tables MainPy))
     = sample_tables MainPy.
Proof.
  assert (fst (@run sample_runtime MainPy girl_24m_80 (sample_tables MainPy))
          = inl (HTTPException 400 "Unknown sex or indicator")) as Hrun
    by (vm_compute; reflexivity).
  assert (HTTPException 400 "Unknown sex or indicator"
          ∈ [ HTTPException 400 "Unknown sex or indicator";
              HTTPException 400 "Provide both years and months";
              HTTPException 500 (detail500 MainPy);
              HTTPException 400 "Provide both length (cm) and weight (kg)" ])
    as Hin by (apply elem_of_cons; left; reflexivity).
  split_and!; [exact Hrun | exact Hin |].
  exact (@X3_early_rejections_keep_the_store sample_runtime MainPy girl_24m_80
           (sample_tables MainPy) _ Hrun Hin).
Defined.

(** X4 on a table whose Month column was read as text: the request is
    rejected and the column is numbers afterwards. *)
Lemma X4_witness :
  text_tables ApiPy !! ("M", "length") = Some text_length_for_age
  /\ getitem text_length_for_age "Month" = inr [CStr "0"; CStr "1"; CStr "24+"]
  /\ @run text_runtime ApiPy boy_7m_unmeasured (text_tables ApiPy)
     = (inl (HTTPException 400 "Provide length (cm)"),
        <[("M", "length") :=
            setitem text_length_for_age "Month" [num 0; num 1; CNum NaN]]>
          (text_tables ApiPy)).
Proof.
  split_and!; [reflexivity | reflexivity |].
  exact (@X4_missing_measurement_after_rewrite text_runtime ApiPy
           boy_7m_unmeasured (text_tables ApiPy) text_length_for_age 0 7
           [CStr "0"; CStr "1"; CStr "24+"]
           eq_refl eq_refl eq_refl eq_refl eq_refl eq_refl).
Defined.






(** X10 on the sample data: 0 years 24 months is 2 years 0 months. *)
Lemma X10_witness :
  0 * 12 + 24 = 2 * 12 + 0
  /\ @run sample_runtime ApiPy boy_0y_24m_80 (sample_tables ApiPy)
     = @run sample_runtime ApiPy boy_24m_80 (sample_tables ApiPy).
Proof.
  split; [reflexivity |].
  exact (@X10_age_is_total_months sample_runtime ApiPy boy_0y_24m_80 boy_24m_80
           (sample_tables ApiPy) 0 24 2 0
           eq_refl eq_refl eq_refl eq_refl eq_refl eq_refl eq_refl eq_refl
           eq_refl).
Defined.

(** X11 on the sample data: an age sent with a weight-for-length request. *)
Lemma X11_witness :
  @run sample_runtime ApiPy wfl_65cm_with_age (sample_tables ApiPy)
  = @run sample_runtime ApiPy wfl_65cm (sample_tables ApiPy).
Proof.
  exact (@X11_other_fields_are_ignored sample_runtime ApiPy wfl_65cm_with_age
           wfl_65cm (sample_tables ApiPy) eq_refl eq_refl (conj eq_refl eq_refl)).
Defined.

(** X12 on the sample data: a girl's and a boy's length-for-age, in turn. *)
Lemma X12_witness :
  snd (@serve sample_runtime MainPy [girl_24m_80; boy_24m_80] (sample_tables MainPy))
  = delete ("F", "length")
      (snd (@serve sample_runtime ApiPy [girl_24m_80; boy_24m_80]
              (sample_tables ApiPy))).
Proof.
  exact (proj1 (@X12_processes_side_by_side sample_runtime
                  [girl_24m_80; boy_24m_80])).
Defined.

(** X13 on a table whose Month column was read as text, after a request. *)
Lemma X13_witness :
  @reachable text_runtime ApiPy
    (snd (@run text_runtime ApiPy boy_1m_55 (text_tables ApiPy)))
  /\ snd (@run text_runtime ApiPy boy_1m_55 (text_tables ApiPy)) !! ("M", "length")
     = Some (setitem text_length_for_age "Month" [num 0; num 1; CNum NaN])
  /\ exists df0,
       text_tables ApiPy !! ("M", "length") = Some df0
       /\ (setitem text_length_for_age "Month" [num 0; num 1; CNum NaN] = df0
           \/ exists keycol s,
                (if Spec.age_indexed "length" then keycol = "Month"
                 else columns0 df0 = inr keycol)
                /\ getitem df0 keycol = inr s
                /\ setitem text_length_for_age "Month" [num 0; num 1; CNum NaN]
                   = setitem df0 keycol (@to_numeric text_runtime s)).
Proof.
  assert (@reachable text_runtime ApiPy
            (snd (@run text_runtime ApiPy boy_1m_55 (text_tables ApiPy))))
    as Hr by (apply reachable_call, reachable_startup).
  assert (snd (@run text_runtime ApiPy boy_1m_55 (text_tables ApiPy))
            !! ("M", "length")
          = Some (setitem text_length_for_age "Month" [num 0; num 1; CNum NaN]))
    as Hdf by (vm_compute; reflexivity).
  split_and!; [exact Hr | exact Hdf |].
  exact (@X13_tables_over_a_lifetime text_runtime ApiPy _ "M" "length" _ Hr Hdf).
Defined.

(** X14 on the sample app. *)
Lemma X14_witness :
  custom_openapi fresh_app = (inr served_schema, served_app)
  /\ openapi_schema served_app = served_schema
  /\ routes served_app = routes fresh_app
  /\ truthy served_schema = true
  /\ forall routes',
       custom_openapi (@Build_FastAPI sample_openapi served_schema routes')
       = (inr served_schema, @Build_FastAPI sample_openapi served_schema routes').
Proof.
  assert (custom_openapi fresh_app = (inr served_schema, served_app)) as Hcall
    by (vm_compute; reflexivity).
  split; [exact Hcall |].
  exact (@X14_schema_is_cached sample_openapi fresh_app served_schema served_app
           Hcall).
Defined.

(** X15 on the sample app. *)
Lemma X15_witness :
  truthy (openapi_schema fresh_app) = false
  /\ custom_openapi fresh_app = (inr served_schema, served_app)
  /\ py_getitem served_schema "servers"
     = inr (JList [JDict [("url", JStr "https://growth-api.vercel.app")]])
  /\ py_getitem served_schema "info"
     = py_getitem (generated_schema fresh_app) "info".
Proof.
  assert (custom_openapi fresh_app = (inr served_schema, served_app)) as Hcall
    by (vm_compute; reflexivity).
  destruct (@X15_servers_are_replaced sample_openapi fresh_app served_schema
              served_app eq_refl Hcall) as [Hservers Hother].
  split_and!; [reflexivity | exact Hcall | exact Hservers |].
  apply Hother; discriminate.
Defined.

(** X16 on the sample app. *)
Lemma X16_witness :
  truthy (openapi_schema fresh_app) = false
  /\ custom_openapi fresh_app = (inr served_schema, served_app)
  /\ py_getpath served_schema
       ["paths"; "/zscore"; "post"; "x-openai-isConsequential"]
     = inr (JBool false)
  /\ py_getpath served_schema ["paths"; "/zscore"; "post"; "summary"]
     = inr (JStr "/zscore").
Proof.
  assert (custom_openapi fresh_app = (inr served_schema, served_app)) as Hcall
    by (vm_compute; reflexivity).
  destruct (@X16_zscore_post_is_flagged sample_openapi fresh_app served_schema
              served_app eq_refl Hcall) as (Hflag & _ & _ & Hentry).
  split_and!; [reflexivity | exact Hcall | exact (Hflag eq_refl) |].
  rewrite Hentry by discriminate. reflexivity.
Defined.

(** X17 on a generator that returns no "paths". *)
Lemma X17_witness :
  custom_openapi pathless_app = (inl (KeyError "paths"), pathless_app)
  /\ truthy (openapi_schema pathless_app) = false
  /\ KeyError "paths" ∈ [TypeError; KeyError "paths"; KeyError "post"].
Proof.
  assert (custom_openapi pathless_app = (inl (KeyError "paths"), pathless_app))
    as Hcall by (vm_compute; reflexivity).
  split; [exact Hcall |].
  exact (proj2 (@X17_failed_call_caches_nothing pathless_openapi pathless_app
                  _ _ Hcall)).
Defined.

